(** * E-Archive backend: the document repository of [src/index.ts]

    A shallow embedding of the Express handlers of the second (current)
    revision of [src/index.ts] and the proofs of the properties its
    specification states about them.

    Modelling conventions.
    - The process-wide array [documents] is a [list Doc.t]; every handler is
      a function from the request and the array to a response and the new
      array.  [documents.push] is [++ [_]], [documents[i] = d] is
      [<[i:=d]>], [documents.splice(i, 1)] is [delete i].
    - [documents] is declared [any[]].  The embedding gives a document the
      keys and JSON types the upload handler stores; a metadata field that
      the multipart body may omit is an [option string] ([None] is
      [undefined]).  The body of a PUT is a partial document: every key is
      either absent or carries a value of that type.
    - A JS number that the code only stores, compares or increments by one
      (a version, a clock reading, a file size) is an integer [Z]; the sum
      of the file sizes is computed in doubles ([Js.number], [Js.add]).
    - [new Date().toISOString()] is kept as the instant it denotes
      (milliseconds since the epoch); [new Date(s).getTime()] reads the
      instant back.  A missing date is [None], whose time value is NaN.
    - Clock readings ([Date.now()], [new Date()]) and the outcome of
      [fs.unlink] are inputs of the handler that consumes them.  The
      directory of the uploads and [path.join] are given by the host
      ([Host]); [fs.unlink] throws on a path with a NUL byte.
    - A string is the sequence of its bytes; [Js.toLowerCase] and [Js.trim]
      are the functions of the language on ASCII text ([ascii_text]).
    - An exception thrown inside a handler (a [TypeError]) is the error
      result [Threw]; Express answers it with status 500. *)

From Stdlib Require Import ZArith Lia Ascii String.
From stdpp Require Import base option list strings pretty numbers sorting.

Local Open Scope string_scope.
Local Open Scope list_scope.

(** ** JavaScript primitives used by the handlers *)

Module Js.

(** [String.prototype.toLowerCase], on the ASCII letters: a string is the
    sequence of its bytes, and the letters outside ASCII are left as they
    are, so the function is the one of the language on ASCII text only. *)
Definition lower_ascii (c : ascii) : ascii :=
  let n := nat_of_ascii c in
  if ((65 <=? n) && (n <=? 90))%nat then ascii_of_nat (n + 32) else c.

Fixpoint toLowerCase (s : string) : string :=
  match s with
  | EmptyString => EmptyString
  | String c r => String (lower_ascii c) (toLowerCase r)
  end.

(** [hay.includes(needle)]. *)
Fixpoint includes (hay needle : string) : bool :=
  String.prefix needle hay ||
  match hay with
  | EmptyString => false
  | String _ r => includes r needle
  end.

(** [s.split(sep)] for a one-character separator. *)
Fixpoint split (sep : ascii) (s : string) : list string :=
  match s with
  | EmptyString => [EmptyString]
  | String c r =>
      if Ascii.eqb c sep then EmptyString :: split sep r
      else match split sep r with
           | [] => [String c EmptyString]
           | h :: t => String c h :: t
           end
  end.

(** [String.prototype.trim], on the ASCII white space: the function of the
    language on ASCII text only. *)
Fixpoint trimStart (s : string) : string :=
  match s with
  | EmptyString => EmptyString
  | String c r => if Ascii.is_space c then trimStart r else s
  end.

Definition trim (s : string) : string :=
  String.rev (trimStart (String.rev (trimStart s))).

(** Truthiness of a string that may be [undefined]: [undefined] and the
    empty string are falsy. *)
Definition truthy (v : option string) : bool :=
  match v with
  | Some s => negb (String.eqb s "")
  | None => false
  end.

(** [Array.prototype.findIndex]; [None] is the result [-1]. *)
Fixpoint findIndex {A} (p : A -> bool) (l : list A) : option nat :=
  match l with
  | [] => None
  | x :: r => if p x then Some 0%nat else S <$> findIndex p r
  end.

(** [Array.prototype.find]; [None] is [undefined]. *)
Definition find {A} (p : A -> bool) (l : list A) : option A :=
  List.find p l.

(** The time value of [new Date(s)] where [s] is the ISO string of an
    instant, and NaN ([None]) where [s] is [undefined]. *)
Definition getTime (date : option Z) : option Z := date.

(** Subtraction of two numbers that may be NaN. *)
Definition sub (a b : option Z) : option Z :=
  match a, b with
  | Some x, Some y => Some (x - y)%Z
  | _, _ => None
  end.

(** [SortCompare] of ECMAScript: the comparator's result, NaN read as +0. *)
Definition sortCompare {A} (comparefn : A -> A -> option Z) (x y : A) : Z :=
  match comparefn x y with
  | Some v => v
  | None => 0%Z
  end.

(** [Array.prototype.sort(comparefn)].  ECMAScript asks for a stable sort
    and leaves the order implementation-defined when [comparefn] is not a
    consistent comparator; the embedding fixes the stable insertion sort:
    an element stays in front of what followed it unless the comparator
    returns a positive number. *)
Fixpoint insert {A} (comparefn : A -> A -> option Z) (x : A) (l : list A) : list A :=
  match l with
  | [] => [x]
  | y :: r =>
      if (0 <? sortCompare comparefn x y)%Z then y :: insert comparefn x r
      else x :: y :: r
  end.

Fixpoint sort {A} (comparefn : A -> A -> option Z) (l : list A) : list A :=
  match l with
  | [] => []
  | x :: r => insert comparefn x (sort comparefn r)
  end.

(** The Number values that a count of bytes takes: the doubles whose value
    is an integer, the two infinities and NaN. *)
Inductive number : Type :=
| Finite (z : Z)
| Infinity (negative : bool)
| NaN.

(** The integer nearest to [x / p], the even one of two. *)
Definition half_even (x p : Z) : Z :=
  let q := (x `div` p)%Z in
  let r := (x `mod` p)%Z in
  if (2 * r <? p)%Z then q
  else if (p <? 2 * r)%Z then (q + 1)%Z
  else if Z.even q then q else (q + 1)%Z.

(** The Number value of an integer: the integer itself below 2^53 and the
    nearest double with a significand of 53 bits above, the even one of
    two; from 2^1024 on the value is infinite. *)
Definition of_Z (z : Z) : number :=
  let a := Z.abs z in
  if (a <? 2 ^ 53)%Z then Finite z
  else
    let ulp := (2 ^ (Z.log2 a - 52))%Z in
    let m := (half_even a ulp * ulp)%Z in
    if (m <? 2 ^ 1024)%Z then Finite (Z.sgn z * m) else Infinity (z <? 0)%Z.

(** [a + b]: the sum of two doubles is the double nearest to the exact
    sum. *)
Definition add (a b : number) : number :=
  match a, b with
  | Finite x, Finite y => of_Z (x + y)
  | NaN, _ | _, NaN => NaN
  | Infinity s, Infinity s' => if Bool.eqb s s' then Infinity s else NaN
  | Infinity s, Finite _ | Finite _, Infinity s => Infinity s
  end.

Definition digit (n : Z) : string := pretty (n `mod` 10)%Z.

(** [Number::toString] of an integer [x] of 10^21 or more: the digits [s]
    are the fewest, [k] of them, for which [s * 10^(n - k)] is a decimal
    that the double [x] is the Number value of; the text is
    [d.ddd...e+(n-1)]. *)
Definition rounds_to (v x : Z) : bool :=
  match of_Z v with
  | Finite y => (y =? x)%Z
  | _ => false
  end.

Definition digits_of (x k : Z) : option (Z * Z) :=
  let d := Z.of_nat (String.length (pretty x)) in
  let c := half_even x (10 ^ (d - k)) in
  let '(s, n) := if (c =? 10 ^ k)%Z then (10 ^ (k - 1), d + 1)%Z else (c, d) in
  if rounds_to (s * 10 ^ (n - k)) x then Some (s, n) else None.

Definition shortest_digits (x : Z) : option (Z * Z) :=
  foldr (fun k rest => match digits_of x k with Some r => Some r | None => rest end)
        None (Z.of_nat <$> seq 1 17).

Definition toString_e21 (x : Z) : string :=
  match shortest_digits x with
  | Some (s, n) =>
      match pretty s with
      | String c EmptyString => String c "e+" +:+ pretty (n - 1)%Z
      | String c r => String c ("." +:+ r) +:+ "e+" +:+ pretty (n - 1)%Z
      | EmptyString => pretty x
      end
  | None => pretty x
  end.

(** [(bytes / 1024 / 1024).toFixed(2)]: the two divisions of a double by
    1024 are exact.  [toFixed] returns [Number::toString] for a value that
    is not finite or is 10^21 or more in magnitude; below it picks the
    integer [n] with [n / 100] nearest to the quotient, the larger of two
    candidates, after taking the sign off. *)
Definition toFixed2_of_MiB (bytes : number) : string :=
  match bytes with
  | NaN => "NaN"
  | Infinity negative => if negative then "-Infinity" else "Infinity"
  | Finite b =>
      let a := Z.abs b in
      (if (b <? 0)%Z then "-" else "") +:+
      (if (a <? 10 ^ 21 * 1048576)%Z
       then
         let n := ((200 * a + 1048576) `div` 2097152)%Z in
         pretty (n `div` 100)%Z +:+ "." +:+ digit (n `div` 10) +:+ digit n
       else toString_e21 (a `div` 1048576))
  end.

End Js.

(** ** Exceptions *)

Inductive result (A : Type) : Type :=
| Ok (a : A)
| Threw (error : string).
Arguments Ok {A} a.
Arguments Threw {A} error.

Global Instance result_bind : MBind result := fun A B k m =>
  match m with
  | Ok a => k a
  | Threw e => Threw e
  end.

Definition TypeError : string := "TypeError".

(** [l.filter(p)] where [p] may throw: the elements are visited in order and
    the first exception ends the call. *)
Fixpoint filterE {A} (p : A -> result bool) (l : list A) : result (list A) :=
  match l with
  | [] => Ok []
  | x :: r =>
      b ← p x;
      r' ← filterE p r;
      Ok (if b : bool then x :: r' else r')
  end.

(** ** Data model *)

Module Entry.
(** An element of [history].  The entry the PUT handler builds has the
    four keys; the entry the upload handler builds has [user] and
    [changes] only. *)
Record t := mk {
  version : option Z;
  date : option Z;
  user : string;
  changes : string;
}.
End Entry.

Module Doc.
Record t := mk {
  id : string;
  title : option string;
  description : option string;
  category : option string;
  department : option string;
  confidentiality : option string;
  tags : list string;
  fileName : string;
  originalName : string;
  filePath : string;
  fileSize : Z;
  fileType : string;
  uploadDate : Z;
  status : string;
  version : Z;
  uploadedBy : string;
  history : list Entry.t;
}.
End Doc.

Module File.
(** [req.file] as multer's disk storage delivers it. *)
Record t := mk {
  filename : string;
  originalname : string;
  size : Z;
  mimetype : string;
}.
End File.

Module Upload.
(** The request of POST /api/documents: the text fields of the multipart
    body and the file, if one was sent. *)
Record t := mk {
  title : option string;
  description : option string;
  category : option string;
  department : option string;
  confidentiality : option string;
  tags : option string;
  file : option File.t;
}.
End Upload.

Module Body.
(** [req.body] of PUT /api/documents/:id: a partial document. *)
Record t := mk {
  id : option string;
  title : option string;
  description : option string;
  category : option string;
  department : option string;
  confidentiality : option string;
  tags : option (list string);
  fileName : option string;
  originalName : option string;
  filePath : option string;
  fileSize : option Z;
  fileType : option string;
  uploadDate : option Z;
  status : option string;
  version : option Z;
  uploadedBy : option string;
  history : option (list Entry.t);
}.

Definition empty : t :=
  mk None None None None None None None None None None None None None None
     None None None.
End Body.

Module Query.
(** [req.query] of GET /api/documents. *)
Record t := mk {
  q : option string;
  category : option string;
  department : option string;
  status : option string;
  confidentiality : option string;
  dateFrom : option string;
  dateTo : option string;
}.

Definition empty : t := mk None None None None None None None.
End Query.

(** A JSON value as [req.body.status] may hold it; [JUndefined] is the
    absent key.  The handler compares the value with two strings and never
    looks inside an array or an object. *)
Inductive json : Type :=
| JUndefined
| JNull
| JBool (b : bool)
| JNumber (n : Z)
| JString (s : string)
| JArray
| JObject.

Module Activity.
(** [{...entry, documentId, documentTitle}]. *)
Record t := mk {
  entry : Entry.t;
  documentId : string;
  documentTitle : option string;
}.
End Activity.

Module Stats.
Record t := mk {
  totalDocuments : nat;
  pendingApprovals : nat;
  storageUsed : string;
  activeUsers : Z;
}.
End Stats.

(** What a handler sends. *)
Inductive body : Type :=
| Text (s : string)
| JsonDocument (d : Doc.t)
| JsonDocuments (l : list Doc.t)
| JsonStats (s : Stats.t)
| JsonActivities (l : list Activity.t)
| NoContent.

Record response := Response { code : Z; sent : body }.

Global Instance entry_eq_dec : EqDecision Entry.t.
Proof. solve_decision. Defined.
Global Instance doc_eq_dec : EqDecision Doc.t.
Proof. solve_decision. Defined.

(** ** The handlers *)

Definition mockUser : string := "Ahmed Mohamud".

Definition has_id (id : string) (doc : Doc.t) : bool :=
  String.eqb (Doc.id doc) id.

(** *** POST /api/documents *)

(** The [filename] callback of the disk storage: the name under which
    multer stores the uploaded file. *)
Definition filename (now : Z) (originalname : string) : string :=
  pretty now +:+ "-" +:+ originalname.

Definition initialEntry : Entry.t :=
  Entry.mk None None mockUser "Initial upload".

Definition newDocument (now_id now_date : Z) (req : Upload.t) (file : File.t) : Doc.t :=
  {| Doc.id := "DOC-" +:+ pretty now_id;
     Doc.title := Upload.title req;
     Doc.description := Upload.description req;
     Doc.category := Upload.category req;
     Doc.department := Upload.department req;
     Doc.confidentiality := Upload.confidentiality req;
     Doc.tags :=
       match Upload.tags req with
       | Some tags =>
           if Js.truthy (Some tags) then Js.trim <$> Js.split "," tags else []
       | None => []
       end;
     Doc.fileName := File.filename file;
     Doc.originalName := File.originalname file;
     Doc.filePath := "/uploads/" +:+ File.filename file;
     Doc.fileSize := File.size file;
     Doc.fileType := File.mimetype file;
     Doc.uploadDate := now_date;
     Doc.status := "pending";
     Doc.version := 1;
     Doc.uploadedBy := mockUser;
     Doc.history := [initialEntry] |}.

Definition post_documents (now_id now_date : Z) (req : Upload.t)
    (documents : list Doc.t) : response * list Doc.t :=
  match Upload.file req with
  | None => (Response 400 (Text "No file uploaded."), documents)
  | Some file =>
      let doc := newDocument now_id now_date req file in
      (Response 201 (JsonDocument doc), documents ++ [doc])
  end.

(** *** GET /api/documents *)

Definition lowered (field : option string) : result string :=
  match field with
  | Some s => Ok (Js.toLowerCase s)
  | None => Threw TypeError
  end.

(** The callback of the [q] filter; [||] evaluates its right operand only
    when the left one is false. *)
Definition matches_q (searchTerm : string) (doc : Doc.t) : result bool :=
  t ← lowered (Doc.title doc);
  if Js.includes t searchTerm then Ok true
  else
    d ← lowered (Doc.description doc);
    if Js.includes d searchTerm then Ok true
    else Ok (existsb (fun tag => Js.includes (Js.toLowerCase tag) searchTerm)
                     (Doc.tags doc)).

(** [doc.field === value] for a field that may be [undefined] and a query
    value that is a string. *)
Definition field_is (field : option string) (value : string) : bool :=
  match field with
  | Some s => String.eqb s value
  | None => false
  end.

(** One optional criterion: applied when the query value is truthy. *)
Definition when_present {A} (value : option string) (p : string -> A -> bool)
    (l : list A) : list A :=
  match value with
  | Some v => if Js.truthy (Some v) then List.filter (p v) l else l
  | None => l
  end.

Section Listing.
(** [new Date(s).getTime()] for a query string [s]: the host's date
    parser, NaN being [None]. *)
Variable Date_parse : string -> option Z.

(** [new Date(doc.uploadDate) >= new Date(dateFrom)]: a comparison with
    NaN is false. *)
Definition not_before (dateFrom : string) (doc : Doc.t) : bool :=
  match Date_parse dateFrom with
  | Some t => (t <=? Doc.uploadDate doc)%Z
  | None => false
  end.

Definition not_after (dateTo : string) (doc : Doc.t) : bool :=
  match Date_parse dateTo with
  | Some t => (Doc.uploadDate doc <=? t)%Z
  | None => false
  end.

Definition filter_documents (query : Query.t) (documents : list Doc.t)
    : result (list Doc.t) :=
  filteredDocuments ←
    match Query.q query with
    | Some q =>
        if Js.truthy (Some q)
        then filterE (matches_q (Js.toLowerCase q)) documents
        else Ok documents
    | None => Ok documents
    end;
  let filteredDocuments :=
    when_present (Query.category query)
      (fun v doc => field_is (Doc.category doc) v) filteredDocuments in
  let filteredDocuments :=
    when_present (Query.department query)
      (fun v doc => field_is (Doc.department doc) v) filteredDocuments in
  let filteredDocuments :=
    when_present (Query.status query)
      (fun v doc => String.eqb (Doc.status doc) v) filteredDocuments in
  let filteredDocuments :=
    when_present (Query.confidentiality query)
      (fun v doc => field_is (Doc.confidentiality doc) v) filteredDocuments in
  let filteredDocuments :=
    when_present (Query.dateFrom query) not_before filteredDocuments in
  let filteredDocuments :=
    when_present (Query.dateTo query) not_after filteredDocuments in
  Ok filteredDocuments.

Definition get_documents (query : Query.t) (documents : list Doc.t) : response :=
  match filter_documents query documents with
  | Ok filteredDocuments => Response 200 (JsonDocuments filteredDocuments)
  | Threw _ => Response 500 (Text "Internal Server Error")
  end.
End Listing.

(** *** GET /api/documents/:id *)

Definition get_document (id : string) (documents : list Doc.t) : response :=
  match Js.find (has_id id) documents with
  | None => Response 404 (Text "Document not found.")
  | Some document => Response 200 (JsonDocument document)
  end.

(** *** DELETE /api/documents/:id

    The host of the server gives the directory of the uploads and
    [path.join].  [fs.unlink] validates its path before it does anything
    else and throws when the path has a NUL byte; the exception leaves the
    handler before [documents.splice] is reached.  [unlink_failed] is what
    the callback of [fs.unlink] receives otherwise; the handler's third
    result is what it writes with [console.error]. *)

Class Host := {
  uploadsDir : string;
  path_join : string -> string -> string;
}.

Fixpoint has_nul (path : string) : bool :=
  match path with
  | EmptyString => false
  | String c r => Ascii.eqb c "000"%char || has_nul r
  end.

Definition delete_document `{host : Host} (unlink_failed : bool) (id : string)
    (documents : list Doc.t) : response * list Doc.t * list string :=
  match Js.findIndex (has_id id) documents with
  | None => (Response 404 (Text "Document not found."), documents, [])
  | Some documentIndex =>
      match documents !! documentIndex with
      | None => (Response 500 (Text "Internal Server Error"), documents, [])
      | Some document =>
          let filePath := path_join uploadsDir (Doc.fileName document) in
          if has_nul filePath
          then (Response 500 (Text "Internal Server Error"), documents, [])
          else
            (Response 204 NoContent,
             delete documentIndex documents,
             if unlink_failed then ["Failed to delete physical file:"] else [])
      end
  end.

(** *** PUT /api/documents/:id *)

Definition updateEntry (newVersion now : Z) : Entry.t :=
  Entry.mk (Some newVersion) (Some now) mockUser "Metadata updated".

(** [{...originalDocument, ...req.body, version, history}]: a key of the
    body replaces the document's, then [version] and [history] are set. *)
Definition updatedDocument (now : Z) (originalDocument : Doc.t) (req_body : Body.t) : Doc.t :=
  let newVersion := (Doc.version originalDocument + 1)%Z in
  {| Doc.id := default (Doc.id originalDocument) (Body.id req_body);
     Doc.title :=
       match Body.title req_body with
       | Some s => Some s
       | None => Doc.title originalDocument
       end;
     Doc.description :=
       match Body.description req_body with
       | Some s => Some s
       | None => Doc.description originalDocument
       end;
     Doc.category :=
       match Body.category req_body with
       | Some s => Some s
       | None => Doc.category originalDocument
       end;
     Doc.department :=
       match Body.department req_body with
       | Some s => Some s
       | None => Doc.department originalDocument
       end;
     Doc.confidentiality :=
       match Body.confidentiality req_body with
       | Some s => Some s
       | None => Doc.confidentiality originalDocument
       end;
     Doc.tags := default (Doc.tags originalDocument) (Body.tags req_body);
     Doc.fileName := default (Doc.fileName originalDocument) (Body.fileName req_body);
     Doc.originalName :=
       default (Doc.originalName originalDocument) (Body.originalName req_body);
     Doc.filePath := default (Doc.filePath originalDocument) (Body.filePath req_body);
     Doc.fileSize := default (Doc.fileSize originalDocument) (Body.fileSize req_body);
     Doc.fileType := default (Doc.fileType originalDocument) (Body.fileType req_body);
     Doc.uploadDate :=
       default (Doc.uploadDate originalDocument) (Body.uploadDate req_body);
     Doc.status := default (Doc.status originalDocument) (Body.status req_body);
     Doc.version := newVersion;
     Doc.uploadedBy :=
       default (Doc.uploadedBy originalDocument) (Body.uploadedBy req_body);
     Doc.history := updateEntry newVersion now :: Doc.history originalDocument |}.

Definition put_document (now : Z) (id : string) (req_body : Body.t)
    (documents : list Doc.t) : response * list Doc.t :=
  match Js.findIndex (has_id id) documents with
  | None => (Response 404 (Text "Document not found."), documents)
  | Some documentIndex =>
      match documents !! documentIndex with
      | None => (Response 500 (Text "Internal Server Error"), documents)
      | Some originalDocument =>
          let doc := updatedDocument now originalDocument req_body in
          (Response 200 (JsonDocument doc), <[documentIndex := doc]> documents)
      end
  end.

(** *** PATCH /api/documents/:id/status *)

(** [['approved', 'rejected'].includes(status)]; the string is returned
    when the test passes. *)
Definition accepted_status (status : json) : option string :=
  match status with
  | JString s =>
      if String.eqb "approved" s || String.eqb "rejected" s then Some s else None
  | _ => None
  end.

Definition with_status (status : string) (doc : Doc.t) : Doc.t :=
  {| Doc.id := Doc.id doc;
     Doc.title := Doc.title doc;
     Doc.description := Doc.description doc;
     Doc.category := Doc.category doc;
     Doc.department := Doc.department doc;
     Doc.confidentiality := Doc.confidentiality doc;
     Doc.tags := Doc.tags doc;
     Doc.fileName := Doc.fileName doc;
     Doc.originalName := Doc.originalName doc;
     Doc.filePath := Doc.filePath doc;
     Doc.fileSize := Doc.fileSize doc;
     Doc.fileType := Doc.fileType doc;
     Doc.uploadDate := Doc.uploadDate doc;
     Doc.status := status;
     Doc.version := Doc.version doc;
     Doc.uploadedBy := Doc.uploadedBy doc;
     Doc.history := Doc.history doc |}.

Definition patch_status (id : string) (status : json)
    (documents : list Doc.t) : response * list Doc.t :=
  match accepted_status status with
  | None => (Response 400 (Text "Invalid status."), documents)
  | Some s =>
      match Js.findIndex (has_id id) documents with
      | None => (Response 404 (Text "Document not found."), documents)
      | Some documentIndex =>
          match documents !! documentIndex with
          | None => (Response 500 (Text "Internal Server Error"), documents)
          | Some doc =>
              (Response 200 (JsonDocument (with_status s doc)),
               <[documentIndex := with_status s doc]> documents)
          end
      end
  end.

(** *** GET /api/stats *)

(** [documents.reduce((acc, doc) => acc + doc.fileSize, 0)]: a sum of
    doubles. *)
Definition storageUsedInBytes (documents : list Doc.t) : Js.number :=
  fold_left (fun acc doc => Js.add acc (Js.of_Z (Doc.fileSize doc)))
            documents (Js.Finite 0).

Definition get_stats (documents : list Doc.t) : Stats.t :=
  {| Stats.totalDocuments := length documents;
     Stats.pendingApprovals :=
       length (List.filter (fun doc => String.eqb (Doc.status doc) "pending") documents);
     Stats.storageUsed :=
       Js.toFixed2_of_MiB (storageUsedInBytes documents) +:+ " MB";
     Stats.activeUsers := 5 |}.

(** *** GET /api/activities *)

Definition allActivities (documents : list Doc.t) : list Activity.t :=
  flat_map
    (fun doc =>
       (fun entry => Activity.mk entry (Doc.id doc) (Doc.title doc))
         <$> Doc.history doc)
    documents.

(** [(a, b) => new Date(b.date).getTime() - new Date(a.date).getTime()]. *)
Definition by_date (a b : Activity.t) : option Z :=
  Js.sub (Js.getTime (Entry.date (Activity.entry b)))
         (Js.getTime (Entry.date (Activity.entry a))).

Definition get_activities (documents : list Doc.t) : list Activity.t :=
  take 5 (Js.sort by_date (allActivities documents)).

(** *** GET /api/documents/:id/download

    [res.download(filePath, document.originalName, callback)]: the file at
    [path.join(uploadsDir, document.fileName)] is sent under the original
    name; when the transfer fails the callback answers 500.
    [download_failed] is whether the callback receives an error. *)

Inductive download : Type :=
| Refused (r : response)
| SentFile (filePath suggestedName : string).

Section Download.
(** The directory of the uploads and [path.join], both of the host. *)
Variable uploadsDir : string.
Variable path_join : string -> string -> string.

Definition download_document (download_failed : bool) (id : string)
    (documents : list Doc.t) : download :=
  match Js.find (has_id id) documents with
  | None => Refused (Response 404 (Text "Document not found."))
  | Some document =>
      let filePath := path_join uploadsDir (Doc.fileName document) in
      if download_failed
      then Refused (Response 500 (Text "Could not download the file."))
      else SentFile filePath (Doc.originalName document)
  end.
End Download.

(** ** Requests that change the repository, and the states they reach *)

Inductive request : Type :=
| PostDocument (now_id now_date : Z) (req : Upload.t)
| PutDocument (now : Z) (id : string) (req_body : Body.t)
| PatchStatus (id : string) (status : json)
| DeleteDocument (unlink_failed : bool) (id : string).

Definition handle `{host : Host} (r : request) (documents : list Doc.t) : list Doc.t :=
  match r with
  | PostDocument now_id now_date req => (post_documents now_id now_date req documents).2
  | PutDocument now id req_body => (put_document now id req_body documents).2
  | PatchStatus id status => (patch_status id status documents).2
  | DeleteDocument unlink_failed id => (delete_document unlink_failed id documents).1.2
  end.

(** The server starts with [documents = []]. *)
Definition serve `{host : Host} (requests : list request) : list Doc.t :=
  fold_left (fun documents r => handle r documents) requests [].

Definition reachable `{host : Host} (documents : list Doc.t) : Prop :=
  exists requests, serve requests = documents.

(** ** The life of one record

    [updates_record i r documents] is the clock reading of [r] when [r] is
    a PUT that finds the record at index [i] of [documents] (and so is
    answered with 200 and the updated record). *)
Definition updates_record (i : nat) (r : request) (documents : list Doc.t) : option Z :=
  match r with
  | PutDocument now id _ =>
      if decide (Js.findIndex (has_id id) documents = Some i) then Some now else None
  | _ => None
  end.

(** [r] leaves the record at index [i] at its index: it is not a DELETE
    that finds a record at an index up to [i]. *)
Definition keeps_record (i : nat) (r : request) (documents : list Doc.t) : Prop :=
  match r with
  | DeleteDocument _ id =>
      match Js.findIndex (has_id id) documents with
      | Some j => (i < j)%nat
      | None => True
      end
  | _ => True
  end.

Fixpoint keep_record `{host : Host} (i : nat) (requests : list request)
    (documents : list Doc.t) : Prop :=
  match requests with
  | [] => True
  | r :: rest => keeps_record i r documents /\ keep_record i rest (handle r documents)
  end.

(** The clock readings of the updates of the record at index [i], oldest
    first, when [requests] are served from [documents]. *)
Fixpoint update_times `{host : Host} (i : nat) (requests : list request)
    (documents : list Doc.t) : list Z :=
  match requests with
  | [] => []
  | r :: rest =>
      option_list (updates_record i r documents)
      ++ update_times i rest (handle r documents)
  end.

Definition serve_from `{host : Host} (documents : list Doc.t)
    (requests : list request) : list Doc.t :=
  fold_left (fun documents r => handle r documents) requests documents.

(** The history entries of updates made at [times] (oldest first) to a
    record at version [v], newest entry first. *)
Fixpoint update_entries (v : Z) (times : list Z) : list Entry.t :=
  match times with
  | [] => []
  | now :: rest => update_entries (v + 1) rest ++ [updateEntry (v + 1) now]
  end.

(** Every record of a reachable repository has the shape the upload gives
    it and the updates keep: its version is the length of its history,
    which is the update entries, newest first, then the initial entry. *)
Definition well_versioned (doc : Doc.t) : Prop :=
  exists times,
    Doc.version doc = (1 + Z.of_nat (length times))%Z /\
    Doc.history doc = (update_entries 1 times ++ [initialEntry]).

(** ** Activities in the order of their dates *)

Definition time_of (a : Activity.t) : option Z :=
  Js.getTime (Entry.date (Activity.entry a)).

(** Both activities are dated and [b] is not newer than [a]. *)
Definition not_older (a b : Activity.t) : Prop :=
  exists ta tb, time_of a = Some ta /\ time_of b = Some tb /\ (tb <= ta)%Z.

(** ** Queries and their combination *)

(** A query with the single criterion [q]. *)
Definition query_q (q : string) : Query.t :=
  Query.mk (Some q) None None None None None None.

(** Two values of one criterion agree when one of them is not applied or
    they are the same. *)
Definition agree (a b : option string) : Prop :=
  Js.truthy a = false \/ Js.truthy b = false \/ a = b.

Definition compatible (q1 q2 : Query.t) : Prop :=
  agree (Query.q q1) (Query.q q2) /\
  agree (Query.category q1) (Query.category q2) /\
  agree (Query.department q1) (Query.department q2) /\
  agree (Query.status q1) (Query.status q2) /\
  agree (Query.confidentiality q1) (Query.confidentiality q2) /\
  agree (Query.dateFrom q1) (Query.dateFrom q2) /\
  agree (Query.dateTo q1) (Query.dateTo q2).

Definition either (a b : option string) : option string :=
  if Js.truthy a then a else b.

(** The query that carries the criteria of both. *)
Definition both (q1 q2 : Query.t) : Query.t :=
  {| Query.q := either (Query.q q1) (Query.q q2);
     Query.category := either (Query.category q1) (Query.category q2);
     Query.department := either (Query.department q1) (Query.department q2);
     Query.status := either (Query.status q1) (Query.status q2);
     Query.confidentiality :=
       either (Query.confidentiality q1) (Query.confidentiality q2);
     Query.dateFrom := either (Query.dateFrom q1) (Query.dateFrom q2);
     Query.dateTo := either (Query.dateTo q1) (Query.dateTo q2) |}.

(** The records of the first listing that the second listing has too. *)
Definition intersection (r1 r2 : list Doc.t) : list Doc.t :=
  List.filter (fun d => bool_decide (d ∈ r2)) r1.

(** The predicate an optional criterion stands for. *)
Definition holds {A} (value : option string) (p : string -> A -> bool) (x : A) : bool :=
  match value with
  | Some v => if Js.truthy (Some v) then p v x else true
  | None => true
  end.

(** A callback that may throw, read as a predicate where it returns. *)
Definition returns_true {A} (p : A -> result bool) (x : A) : bool :=
  match p x with
  | Ok b => b
  | Threw _ => false
  end.

Definition satisfies (Date_parse : string -> option Z) (query : Query.t)
    (doc : Doc.t) : bool :=
  holds (Query.q query) (fun v => returns_true (matches_q (Js.toLowerCase v))) doc
  && holds (Query.category query) (fun v doc => field_is (Doc.category doc) v) doc
  && holds (Query.department query) (fun v doc => field_is (Doc.department doc) v) doc
  && holds (Query.status query) (fun v doc => String.eqb (Doc.status doc) v) doc
  && holds (Query.confidentiality query)
       (fun v doc => field_is (Doc.confidentiality doc) v) doc
  && holds (Query.dateFrom query) (not_before Date_parse) doc
  && holds (Query.dateTo query) (not_after Date_parse) doc.

(** The [q] filter does not throw on any record. *)
Definition q_returns (query : Query.t) (documents : list Doc.t) : Prop :=
  Js.truthy (Query.q query) = true ->
  Forall (fun doc => Doc.title doc <> None /\
            (Doc.description doc <> None \/
             exists t, Doc.title doc = Some t /\
               Js.includes (Js.toLowerCase t)
                 (Js.toLowerCase (default "" (Query.q query))) = true))
         documents.

(** ** Answers, uploads and clocks along a run *)

(** What the handler of [r] sends. *)
Definition respond `{host : Host} (r : request) (documents : list Doc.t) : response :=
  match r with
  | PostDocument now_id now_date req => (post_documents now_id now_date req documents).1
  | PutDocument now id req_body => (put_document now id req_body documents).1
  | PatchStatus id status => (patch_status id status documents).1
  | DeleteDocument unlink_failed id => (delete_document unlink_failed id documents).1.1
  end.

(** The number of uploads among [requests] that carry a file. *)
Definition uploads (requests : list request) : nat :=
  length (List.filter
            (fun r => match r with
                      | PostDocument _ _ req => bool_decide (is_Some (Upload.file req))
                      | _ => false
                      end) requests).

(** Every upload reads a clock value of at least [bound] that is larger
    than the values read by the uploads before it, and no PUT body has the
    key [id]. *)
Fixpoint clock_advances (bound : Z) (requests : list request) : Prop :=
  match requests with
  | [] => True
  | PostDocument now_id _ _ :: rest =>
      (bound <= now_id)%Z /\ clock_advances (now_id + 1) rest
  | PutDocument _ _ req_body :: rest =>
      Body.id req_body = None /\ clock_advances bound rest
  | _ :: rest => clock_advances bound rest
  end.

(** The ids of a repository are pairwise different and were made from
    clock values below [bound]. *)
Definition ids_below (bound : Z) (documents : list Doc.t) : Prop :=
  NoDup (Doc.id <$> documents) /\
  Forall (fun id => exists t, (t < bound)%Z /\ id = "DOC-" +:+ pretty t)
         (Doc.id <$> documents).

(** The number of history entries of a repository. *)
Definition history_entries (documents : list Doc.t) : nat :=
  foldr (fun doc n => (length (Doc.history doc) + n)%nat) 0%nat documents.

(** A string that neither starts nor ends with white space. *)
Definition starts_black (s : string) : Prop :=
  match s with
  | EmptyString => True
  | String c _ => Ascii.is_space c = false
  end.

(** Text of ASCII characters only, on which [Js.toLowerCase] is the
    lowering of the language. *)
Fixpoint ascii_text (s : string) : bool :=
  match s with
  | EmptyString => true
  | String c r => (nat_of_ascii c <? 128)%nat && ascii_text r
  end.

(** A record whose title, description and tags are ASCII text. *)
Definition ascii_record (doc : Doc.t) : bool :=
  from_option ascii_text true (Doc.title doc)
  && from_option ascii_text true (Doc.description doc)
  && forallb ascii_text (Doc.tags doc).

(** The exact sum of the file sizes. *)
Definition bytes_of (documents : list Doc.t) : Z :=
  foldr Z.add 0%Z (Doc.fileSize <$> documents).

(** The number of pending records, as the statistics count them. *)
Definition pending (documents : list Doc.t) : nat :=
  Stats.pendingApprovals (get_stats documents).

(** The number of occurrences of a character in a string. *)
Fixpoint occurrences (c : ascii) (s : string) : nat :=
  match s with
  | EmptyString => 0%nat
  | String a r => ((if Ascii.eqb a c then 1 else 0) + occurrences c r)%nat
  end.

(** A date parser for the examples: it knows two query strings. *)
Definition parse_sample (s : string) : option Z :=
  if String.eqb s "1970-01-01T00:00:00.006Z" then Some 6%Z
  else if String.eqb s "1970-01-01T00:00:00.009Z" then Some 9%Z
  else None.

(** ** Sample requests, used to evaluate the handlers *)

(** A host for the examples. *)
Definition sampleHost : Host :=
  {| uploadsDir := "/srv/uploads";
     path_join := fun dir name => dir +:+ "/" +:+ name |}.


Definition fileA : File.t :=
  File.mk (filename 1 "a.pdf") "a.pdf" 1000 "application/pdf".
Definition fileB : File.t :=
  File.mk (filename 2 "b.pdf") "b.pdf" 2000 "application/pdf".

Definition uploadA : Upload.t :=
  Upload.mk (Some "Budget") (Some "Annual budget") (Some "finance")
    (Some "accounts") (Some "internal") (Some "q1, money") (Some fileA).

Definition uploadB : Upload.t :=
  Upload.mk (Some "Contract") (Some "Lease") (Some "legal")
    (Some "estates") (Some "public") None (Some fileB).

(** An upload whose multipart body has no [title] field, and one that has
    no [description] field. *)
Definition uploadUntitled : Upload.t :=
  Upload.mk None (Some "Scan") None None None None (Some fileA).

Definition uploadUndescribed : Upload.t :=
  Upload.mk (Some "Scan") None None None None None (Some fileA).

Definition docA : Doc.t := newDocument 5 5 uploadA fileA.
Definition docB : Doc.t := newDocument 7 7 uploadB fileB.

(** A PUT body that carries the keys of the identifier and of the file. *)
Definition bodyWithFileKeys : Body.t :=
  {| Body.id := Some "DOC-0";
     Body.title := None;
     Body.description := None;
     Body.category := None;
     Body.department := None;
     Body.confidentiality := None;
     Body.tags := None;
     Body.fileName := Some "other.bin";
     Body.originalName := Some "other";
     Body.filePath := None;
     Body.fileSize := Some 1%Z;
     Body.fileType := Some "text/plain";
     Body.uploadDate := None;
     Body.status := None;
     Body.version := Some 40%Z;
     Body.uploadedBy := None;
     Body.history := Some [] |}.

(** A PUT body whose [fileName] has a NUL byte ("a\u0000b" in JSON). *)
Definition bodyNulName : Body.t :=
  {| Body.id := None;
     Body.title := None;
     Body.description := None;
     Body.category := None;
     Body.department := None;
     Body.confidentiality := None;
     Body.tags := None;
     Body.fileName := Some (String "a" (String "000" "b"));
     Body.originalName := None;
     Body.filePath := None;
     Body.fileSize := None;
     Body.fileType := None;
     Body.uploadDate := None;
     Body.status := None;
     Body.version := None;
     Body.uploadedBy := None;
     Body.history := None |}.

Definition bodyTitle (title : string) : Body.t :=
  {| Body.id := None;
     Body.title := Some title;
     Body.description := None;
     Body.category := None;
     Body.department := None;
     Body.confidentiality := None;
     Body.tags := None;
     Body.fileName := None;
     Body.originalName := None;
     Body.filePath := None;
     Body.fileSize := None;
     Body.fileType := None;
     Body.uploadDate := None;
     Body.status := None;
     Body.version := None;
     Body.uploadedBy := None;
     Body.history := None |}.

(** Copies of [docA] and [docB] whose files are 1 and 2 bytes long. *)
Definition docA1 : Doc.t :=
  newDocument 5 5 uploadA (File.mk "1-a.pdf" "a.pdf" 1 "application/pdf").
Definition docB2 : Doc.t :=
  newDocument 7 7 uploadB (File.mk "2-b.pdf" "b.pdf" 2 "application/pdf").

(** Two documents, each uploaded and then updated; the second update is
    the later one. *)
Definition twoUpdated `{host : Host} : list Doc.t :=
  serve [PostDocument 5 5 uploadA;
         PutDocument 10 "DOC-5" (bodyTitle "Budget 2");
         PostDocument 7 7 uploadB;
         PutDocument 20 "DOC-7" (bodyTitle "Contract 2")].

(** Six uploads at the instants 1 to 6. *)
Definition sixUploads `{host : Host} : list Doc.t :=
  serve [PostDocument 1 1 uploadA; PostDocument 2 2 uploadB;
         PostDocument 3 3 uploadA; PostDocument 4 4 uploadB;
         PostDocument 5 5 uploadA; PostDocument 6 6 uploadB].

(** What a client reads of an activity: the summary, the date and the
    document's id. *)
Definition activity_line (a : Activity.t) : string * option Z * string :=
  (Entry.changes (Activity.entry a), Entry.date (Activity.entry a),
   Activity.documentId a).

Definition queryFinance : Query.t :=
  Query.mk None (Some "finance") None None None None None.
Definition queryPending : Query.t :=
  Query.mk None None None (Some "pending") None None None.

(** * Proofs *)

(** ** [findIndex] and [find] *)

Section FindIndex.
Context {A : Type} (p : A -> bool).

Lemma findIndex_Some (l : list A) (i : nat) :
  Js.findIndex p l = Some i ->
  exists x, l !! i = Some x /\ p x = true /\
            forall j y, (j < i)%nat -> l !! j = Some y -> p y = false.
Proof.
  revert i. induction l as [|a l IH]; intros i; simpl; [discriminate|].
  destruct (p a) eqn:Ha.
  - intros [= <-]. exists a. repeat split; auto. intros j y Hj. lia.
  - destruct (Js.findIndex p l) as [k|] eqn:Hk; simpl; [|discriminate].
    intros [= <-]. destruct (IH k eq_refl) as (x & Hx & Hp & Hlt).
    exists x. repeat split; auto.
    intros [|j] y Hj Hy; simpl in Hy.
    + congruence.
    + apply (Hlt j); [lia | done].
Qed.

Lemma findIndex_None (l : list A) :
  Js.findIndex p l = None <-> Forall (fun x => p x = false) l.
Proof.
  induction l as [|a l IH]; simpl.
  - split; [constructor | done].
  - destruct (p a) eqn:Ha.
    + split; [discriminate|]. intros H. inversion H; congruence.
    + destruct (Js.findIndex p l) eqn:Hk; simpl.
      * split; [discriminate|]. intros H. inversion H; subst.
        apply IH in H3. discriminate.
      * split; [|done]. intros _. constructor; [done|]. by apply IH.
Qed.

Lemma findIndex_lookup (l : list A) (i : nat) :
  Js.findIndex p l = Some i -> is_Some (l !! i).
Proof. intros H. destruct (findIndex_Some l i H) as (x & Hx & _). eauto. Qed.

Lemma findIndex_first (l : list A) (i : nat) (x : A) :
  l !! i = Some x -> p x = true ->
  (forall j y, (j < i)%nat -> l !! j = Some y -> p y = false) ->
  Js.findIndex p l = Some i.
Proof.
  revert i. induction l as [|a l IH]; intros [|i]; simpl; try discriminate.
  - intros [= ->] -> _. done.
  - intros Hx Hp Hlt. rewrite (Hlt 0%nat a) by (simpl; auto with lia).
    rewrite (IH i); auto. intros j y Hj Hy. apply (Hlt (S j)); [lia | done].
Qed.

Lemma find_findIndex (l : list A) :
  Js.find p l = (Js.findIndex p l ≫= fun i => l !! i).
Proof.
  unfold Js.find. induction l as [|a l IH]; simpl; [done|].
  destruct (p a); [done|]. rewrite IH.
  by destruct (Js.findIndex p l).
Qed.
End FindIndex.

(** ** PATCH /api/documents/:id/status *)

Lemma accepted_status_Some (status : json) (s : string) :
  accepted_status status = Some s <->
  status = JString s /\ (s = "approved" \/ s = "rejected").
Proof.
  unfold accepted_status.
  destruct status; try (split; [discriminate | intros [? _]; discriminate]).
  destruct (String.eqb_spec "approved" s0) as [Ha|Ha];
    [|destruct (String.eqb_spec "rejected" s0) as [Hr|Hr]]; cbn [orb].
  - split; [intros [= <-]; auto | intros [[= <-] _]; done].
  - split; [intros [= <-]; auto | intros [[= <-] _]; done].
  - split; [discriminate|]. intros [[= <-] [->| ->]]; congruence.
Qed.

(** C3: a status outside {approved, rejected} is answered with 400
    "Invalid status." whatever the id is, known or not (the test precedes
    the lookup), and the repository is left as it was. *)
Theorem patch_status_invalid (id : string) (status : json) (documents : list Doc.t) :
  status <> JString "approved" ->
  status <> JString "rejected" ->
  patch_status id status documents
  = (Response 400 (Text "Invalid status."), documents).
Proof.
  intros Ha Hr. unfold patch_status.
  destruct (accepted_status status) as [s|] eqn:Hs; [|done].
  apply accepted_status_Some in Hs as [-> [-> | ->]]; congruence.
Qed.

Lemma patch_status_invalid_witness :
  patch_status "DOC-404" (JString "archived") [docA]
  = (Response 400 (Text "Invalid status."), [docA])
  /\ patch_status "DOC-5" JUndefined [docA]
  = (Response 400 (Text "Invalid status."), [docA]).
Proof.
  split.
  - apply (patch_status_invalid "DOC-404" (JString "archived") [docA]); discriminate.
  - apply (patch_status_invalid "DOC-5" JUndefined [docA]); discriminate.
Defined.

(** C8: on an existing document a valid status update answers 200 and
    replaces the record by one that differs in [status] only: [version],
    [history] and every other key are the old ones, and so is every other
    record of the repository. *)
Theorem patch_status_frame (id s : string) (documents : list Doc.t) (i : nat) :
  s = "approved" \/ s = "rejected" ->
  Js.findIndex (has_id id) documents = Some i ->
  exists doc doc',
    documents !! i = Some doc /\
    patch_status id (JString s) documents
    = (Response 200 (JsonDocument doc'), <[i := doc']> documents) /\
    Doc.status doc' = s /\
    Doc.version doc' = Doc.version doc /\
    Doc.history doc' = Doc.history doc /\
    doc' = with_status s doc /\
    with_status (Doc.status doc) doc' = doc /\
    length (<[i := doc']> documents) = length documents /\
    forall j, j <> i -> <[i := doc']> documents !! j = documents !! j.
Proof.
  intros Hs Hi.
  destruct (findIndex_lookup _ _ _ Hi) as [doc Hdoc].
  exists doc, (with_status s doc). unfold patch_status.
  assert (accepted_status (JString s) = Some s) as ->
    by (apply accepted_status_Some; auto).
  rewrite Hi, Hdoc.
  split; [done|]. split; [done|]. split; [done|]. split; [done|].
  split; [done|]. split; [done|]. split; [by destruct doc|].
  split; [apply length_insert|].
  intros j Hj. by apply list_lookup_insert_ne.
Qed.

Lemma patch_status_frame_witness :
  exists doc doc',
    [docA; docB] !! 1%nat = Some doc /\
    patch_status "DOC-7" (JString "approved") [docA; docB]
    = (Response 200 (JsonDocument doc'), <[1%nat := doc']> [docA; docB]) /\
    Doc.status doc' = "approved" /\
    Doc.version doc' = Doc.version doc /\
    Doc.history doc' = Doc.history doc /\
    doc' = with_status "approved" doc /\
    with_status (Doc.status doc) doc' = doc /\
    length (<[1%nat := doc']> [docA; docB]) = length [docA; docB] /\
    forall j, j <> 1%nat -> <[1%nat := doc']> [docA; docB] !! j = [docA; docB] !! j.
Proof.
  apply (patch_status_frame "DOC-7" "approved" [docA; docB] 1).
  - left; reflexivity.
  - vm_compute; reflexivity.
Defined.

(** ** PUT /api/documents/:id *)

Lemma put_document_found (now : Z) (id : string) (req_body : Body.t)
    (documents : list Doc.t) (i : nat) :
  Js.findIndex (has_id id) documents = Some i ->
  exists originalDocument,
    documents !! i = Some originalDocument /\
    has_id id originalDocument = true /\
    put_document now id req_body documents
    = (Response 200 (JsonDocument (updatedDocument now originalDocument req_body)),
       <[i := updatedDocument now originalDocument req_body]> documents).
Proof.
  intros Hi. destruct (findIndex_Some _ _ _ Hi) as (orig & Horig & Hid & _).
  exists orig. unfold put_document. by rewrite Hi, Horig.
Qed.

(** C2 (amended): a PUT on an existing document builds the new record from
    the old one and the body; the identifier and each file attribute is the
    body's value when the body has the key and the stored value otherwise.
    They are unchanged when the body has none of these keys; nothing
    filters them out of the body. *)
Theorem put_document_file_keys (now : Z) (id : string) (req_body : Body.t)
    (documents : list Doc.t) (i : nat) :
  Js.findIndex (has_id id) documents = Some i ->
  exists originalDocument doc,
    documents !! i = Some originalDocument /\
    put_document now id req_body documents
    = (Response 200 (JsonDocument doc), <[i := doc]> documents) /\
    Doc.id doc = default (Doc.id originalDocument) (Body.id req_body) /\
    Doc.fileName doc = default (Doc.fileName originalDocument) (Body.fileName req_body) /\
    Doc.originalName doc
    = default (Doc.originalName originalDocument) (Body.originalName req_body) /\
    Doc.filePath doc = default (Doc.filePath originalDocument) (Body.filePath req_body) /\
    Doc.fileSize doc = default (Doc.fileSize originalDocument) (Body.fileSize req_body) /\
    Doc.fileType doc = default (Doc.fileType originalDocument) (Body.fileType req_body) /\
    (Body.id req_body = None -> Body.fileName req_body = None ->
     Body.originalName req_body = None -> Body.filePath req_body = None ->
     Body.fileSize req_body = None -> Body.fileType req_body = None ->
     Doc.id doc = Doc.id originalDocument /\
     Doc.fileName doc = Doc.fileName originalDocument /\
     Doc.originalName doc = Doc.originalName originalDocument /\
     Doc.filePath doc = Doc.filePath originalDocument /\
     Doc.fileSize doc = Doc.fileSize originalDocument /\
     Doc.fileType doc = Doc.fileType originalDocument).
Proof.
  intros Hi.
  destruct (put_document_found now id req_body documents i Hi) as (orig & Ho & _ & Hput).
  exists orig, (updatedDocument now orig req_body).
  split; [done|]. split; [done|]. simpl.
  do 6 (split; [done|]).
  by intros -> -> -> -> -> ->.
Qed.

Lemma put_document_file_keys_witness :
  exists originalDocument doc,
    [docA] !! 0%nat = Some originalDocument /\
    put_document 10 "DOC-5" (bodyTitle "Budget 2") [docA]
    = (Response 200 (JsonDocument doc), <[0%nat := doc]> [docA]) /\
    Doc.id doc = "DOC-5" /\ Doc.fileName doc = "1-a.pdf" /\
    Doc.fileSize doc = 1000%Z /\ Doc.title doc = Some "Budget 2".
Proof.
  destruct (put_document_file_keys 10 "DOC-5" (bodyTitle "Budget 2") [docA] 0)
    as (orig & doc & Ho & Hput & Hid & Hname & _ & _ & Hsize & _).
  - vm_compute; reflexivity.
  - exists orig, doc. injection Ho as <-.
    split; [reflexivity|]. split; [exact Hput|].
    split; [exact Hid|]. split; [exact Hname|]. split; [exact Hsize|].
    vm_compute in Hput. injection Hput as <- _. reflexivity.
Defined.

(** C2, as stated, fails: a body with the keys [id], [fileName],
    [originalName], [fileSize] and [fileType] replaces all of them. *)
Lemma put_document_overwrites_file_keys :
  let doc := updatedDocument 10 docA bodyWithFileKeys in
  put_document 10 "DOC-5" bodyWithFileKeys [docA]
  = (Response 200 (JsonDocument doc), [doc]) /\
  (Doc.id docA = "DOC-5" /\ Doc.id doc = "DOC-0") /\
  (Doc.fileName docA = "1-a.pdf" /\ Doc.fileName doc = "other.bin") /\
  (Doc.originalName docA = "a.pdf" /\ Doc.originalName doc = "other") /\
  (Doc.fileSize docA = 1000%Z /\ Doc.fileSize doc = 1%Z) /\
  (Doc.fileType docA = "application/pdf" /\ Doc.fileType doc = "text/plain") /\
  Doc.version doc = 2%Z /\ length (Doc.history doc) = 2%nat.
Proof. vm_compute. repeat split. Qed.

(** ** POST /api/documents *)

(** X25: an upload with a file answers 201 with a record appended to the
    repository whose [version] is 1, whose [status] is pending and whose
    [history] is the single entry "Initial upload"; its id is "DOC-"
    followed by the clock reading, which differs from every stored id that
    was made from another reading. *)
Theorem post_documents_creates (now_id now_date : Z) (req : Upload.t)
    (file : File.t) (documents : list Doc.t) :
  Upload.file req = Some file ->
  exists doc,
    post_documents now_id now_date req documents
    = (Response 201 (JsonDocument doc), documents ++ [doc]) /\
    Doc.version doc = 1%Z /\
    Doc.status doc = "pending" /\
    length (Doc.history doc) = 1%nat /\
    Entry.changes <$> Doc.history doc = ["Initial upload"] /\
    Doc.id doc = "DOC-" +:+ pretty now_id /\
    Forall (fun d => (exists t, t <> now_id /\ Doc.id d = "DOC-" +:+ pretty t) ->
                     Doc.id d <> Doc.id doc) documents.
Proof.
  intros Hfile. exists (newDocument now_id now_date req file).
  unfold post_documents. rewrite Hfile.
  do 6 (split; [done|]).
  apply Forall_forall. intros d _ (t & Ht & Hd). rewrite Hd. simpl.
  intros Heq. apply (inj (String.app "DOC-")) in Heq. by apply (inj pretty) in Heq.
Qed.

Lemma post_documents_creates_witness :
  exists doc,
    post_documents 7 7 uploadB [docA]
    = (Response 201 (JsonDocument doc), [docA; doc]) /\
    Doc.version doc = 1%Z /\ Doc.status doc = "pending" /\
    Entry.changes <$> Doc.history doc = ["Initial upload"] /\
    Doc.id doc = "DOC-7" /\ Doc.id docA <> Doc.id doc.
Proof.
  destruct (post_documents_creates 7 7 uploadB fileB [docA] eq_refl)
    as (doc & Hpost & Hv & Hs & _ & Hh & Hid & Hfresh).
  exists doc. split; [exact Hpost|]. split; [exact Hv|]. split; [exact Hs|].
  split; [exact Hh|]. split; [exact Hid|].
  apply (Forall_inv Hfresh).
  exists 5%Z. split; [discriminate | reflexivity].
Defined.

(** C6: the code at two uploads served within the same millisecond.  The
    id is made from the clock reading alone, so the second record gets the
    id of the first and the repository holds two records under one id. *)
Theorem post_documents_same_id :
  let documents := (post_documents 5 5 uploadA []).2 in
  let doc := newDocument 5 6 uploadB fileB in
  post_documents 5 6 uploadB documents
  = (Response 201 (JsonDocument doc), [docA; doc]) /\
  Doc.id doc = Doc.id docA /\
  has_id (Doc.id doc) <$> [docA; doc] = [true; true].
Proof. vm_compute. repeat split. Qed.

(** ** Versions and histories along a run *)

Lemma update_entries_length (v : Z) (times : list Z) :
  length (update_entries v times) = length times.
Proof.
  revert v. induction times as [|now rest IH]; intros v; simpl; [done|].
  rewrite length_app, IH. simpl. lia.
Qed.

Lemma update_entries_changes (v : Z) (times : list Z) :
  Forall (fun e => Entry.changes e = "Metadata updated") (update_entries v times).
Proof.
  revert v. induction times as [|now rest IH]; intros v; simpl; [constructor|].
  apply Forall_app. split; [apply IH|]. by repeat constructor.
Qed.

(** The entry of the [k]-th update (counting from 0) carries version
    [v + 1 + k] and sits [k] places from the old end of the list: newer
    entries are in front of it. *)
Lemma update_entries_lookup (v : Z) (times : list Z) (k : nat) (now : Z) :
  times !! k = Some now ->
  update_entries v times !! (length times - 1 - k)%nat
  = Some (updateEntry (v + 1 + Z.of_nat k) now).
Proof.
  revert v k. induction times as [|t rest IH]; intros v k; [done|].
  destruct k as [|k]; simpl.
  - intros [= ->]. rewrite lookup_app_r; rewrite update_entries_length; [|lia].
    replace (length rest - 0 - 0 - length rest)%nat with 0%nat by lia.
    simpl. do 2 f_equal. lia.
  - intros Hk. pose proof (lookup_lt_Some _ _ _ Hk).
    rewrite lookup_app_l by (rewrite update_entries_length; lia).
    replace (length rest - 0 - S k)%nat with (length rest - 1 - k)%nat by lia.
    rewrite (IH (v + 1)%Z k Hk). do 2 f_equal. lia.
Qed.

(** One request: the record at index [i] stays at index [i]; an update of
    that record adds one to its version and puts its entry in front of the
    history, any other request leaves both alone. *)
Lemma handle_record `{host : Host} (i : nat) (r : request) (documents : list Doc.t)
    (doc : Doc.t) :
  documents !! i = Some doc ->
  keeps_record i r documents ->
  exists doc',
    handle r documents !! i = Some doc' /\
    Doc.version doc'
    = (Doc.version doc + Z.of_nat (length (option_list (updates_record i r documents))))%Z /\
    Doc.history doc'
    = (update_entries (Doc.version doc) (option_list (updates_record i r documents))
       ++ Doc.history doc).
Proof.
  intros Hdoc Hkeep. destruct r as [now_id now_date req|now id req_body|id status|failed id]; simpl.
  - exists doc. unfold post_documents.
    destruct (Upload.file req); simpl; rewrite ?Z.add_0_r; [|done].
    by rewrite lookup_app_l by (by eapply lookup_lt_Some).
  - destruct (Js.findIndex (has_id id) documents) as [j|] eqn:Hj.
    + destruct (put_document_found now id req_body documents j Hj) as (orig & Ho & _ & ->).
      simpl. destruct (decide (Some j = Some i)) as [[= ->]|Hne].
      * rewrite Hdoc in Ho. injection Ho as <-.
        exists (updatedDocument now doc req_body).
        rewrite list_lookup_insert_eq by (by eapply lookup_lt_Some). done.
      * exists doc. rewrite list_lookup_insert_ne by congruence.
        simpl. by rewrite Z.add_0_r.
    + exists doc. unfold put_document. rewrite Hj. simpl.
      destruct (decide (None = Some i)); [done|]. simpl. by rewrite Z.add_0_r.
  - unfold patch_status. rewrite Z.add_0_r.
    destruct (accepted_status status) as [s|]; simpl; [|by exists doc].
    destruct (Js.findIndex (has_id id) documents) as [j|] eqn:Hj; simpl; [|by exists doc].
    destruct (findIndex_lookup _ _ _ Hj) as [dj Hdj]. rewrite Hdj. simpl.
    destruct (decide (j = i)) as [->|Hne].
    + rewrite Hdoc in Hdj. injection Hdj as <-. exists (with_status s doc).
      by rewrite list_lookup_insert_eq by (by eapply lookup_lt_Some).
    + exists doc. by rewrite list_lookup_insert_ne.
  - unfold delete_document. rewrite Z.add_0_r. simpl in Hkeep.
    destruct (Js.findIndex (has_id id) documents) as [j|]; simpl; [|by exists doc].
    destruct (documents !! j) as [dj|]; simpl; [|by exists doc].
    destruct (has_nul (path_join uploadsDir (Doc.fileName dj))); simpl; [by exists doc|].
    exists doc. by rewrite list_lookup_delete_lt.
Qed.

Lemma serve_from_record `{host : Host} (i : nat) (requests : list request)
    (documents : list Doc.t) (doc : Doc.t) :
  documents !! i = Some doc ->
  keep_record i requests documents ->
  exists doc',
    serve_from documents requests !! i = Some doc' /\
    Doc.version doc'
    = (Doc.version doc + Z.of_nat (length (update_times i requests documents)))%Z /\
    Doc.history doc'
    = (update_entries (Doc.version doc) (update_times i requests documents)
       ++ Doc.history doc).
Proof.
  revert documents doc.
  induction requests as [|r rest IH]; intros documents doc Hdoc Hkeep; simpl.
  - exists doc. by rewrite Z.add_0_r.
  - destruct Hkeep as [Hr Hrest].
    destruct (handle_record i r documents doc Hdoc Hr) as (d1 & H1 & Hv1 & Hh1).
    destruct (IH _ d1 H1 Hrest) as (d2 & H2 & Hv2 & Hh2).
    exists d2. split; [done|]. rewrite Hv2, Hh2, Hv1, Hh1, length_app.
    split; [lia|].
    destruct (updates_record i r documents) as [now|]; simpl.
    + rewrite <- app_assoc. simpl. do 3 f_equal. 
    + by rewrite Z.add_0_r.
Qed.

(** C1: a document is uploaded into any repository and [requests] are
    served after that, none of which removes a record at or before the
    document's index.  If N of them are metadata updates of the document
    (PUTs that find it), the document ends with [version = 1 + N] and a
    history of [1 + N] entries: the N entries "Metadata updated", the
    newest first (the [k]-th update's entry carries version [2 + k] and its
    clock reading and lies [k] places before the initial entry's
    neighbour), followed by the entry of the upload. *)
Theorem metadata_updates_version_history `{host : Host} (now_id now_date : Z)
    (req : Upload.t) (file : File.t) (documents : list Doc.t)
    (requests : list request) :
  Upload.file req = Some file ->
  keep_record (length documents) requests
    (post_documents now_id now_date req documents).2 ->
  exists doc times,
    times = update_times (length documents) requests
              (post_documents now_id now_date req documents).2 /\
    serve_from (post_documents now_id now_date req documents).2 requests
      !! length documents = Some doc /\
    Doc.version doc = (1 + Z.of_nat (length times))%Z /\
    length (Doc.history doc) = (1 + length times)%nat /\
    Doc.history doc = (update_entries 1 times ++ [initialEntry]) /\
    Forall (fun e => Entry.changes e = "Metadata updated") (update_entries 1 times) /\
    forall k now, times !! k = Some now ->
      Doc.history doc !! (length times - 1 - k)%nat
      = Some (updateEntry (2 + Z.of_nat k) now).
Proof.
  intros Hfile Hkeep.
  pose (d0 := newDocument now_id now_date req file).
  assert (Hpost : post_documents now_id now_date req documents
                  = (Response 201 (JsonDocument d0), documents ++ [d0]))
    by (unfold post_documents; by rewrite Hfile).
  assert (Hv0 : Doc.version d0 = 1%Z) by done.
  assert (Hd0 : d0 = newDocument now_id now_date req file) by done.
  clearbody d0. rewrite Hpost in *. simpl in *.
  assert (Hi : (documents ++ [d0]) !! length documents = Some d0)
    by (by rewrite list_lookup_middle).
  destruct (serve_from_record _ _ _ _ Hi Hkeep) as (doc & Hdoc & Hv & Hh).
  exists doc, (update_times (length documents) requests (documents ++ [d0])).
  rewrite Hv0 in Hv, Hh. rewrite Hd0 in Hh at 2. simpl in Hh.
  split; [done|]. split; [done|]. split; [done|].
  split; [rewrite Hh, length_app, update_entries_length; simpl; lia|].
  split; [done|]. split; [apply update_entries_changes|].
  intros k now Hk. rewrite Hh.
  pose proof (lookup_lt_Some _ _ _ Hk).
  rewrite lookup_app_l by (rewrite update_entries_length; lia).
  rewrite (update_entries_lookup 1 _ k now Hk). do 2 f_equal; lia.
Qed.

Lemma metadata_updates_version_history_witness :
  exists doc,
    serve_from (host := sampleHost) [docA]
      [PutDocument 10 "DOC-5" (bodyTitle "Budget 2");
       PatchStatus "DOC-5" (JString "approved");
       PostDocument 7 7 uploadB;
       PutDocument 20 "DOC-7" Body.empty;
       PutDocument 30 "DOC-5" Body.empty;
       DeleteDocument false "DOC-7"] !! 0%nat = Some doc /\
    Doc.version doc = 3%Z /\
    Doc.history doc = [updateEntry 3 30; updateEntry 2 10; initialEntry].
Proof.
  destruct (metadata_updates_version_history (host := sampleHost) 5 5 uploadA fileA []
    [PutDocument 10 "DOC-5" (bodyTitle "Budget 2");
     PatchStatus "DOC-5" (JString "approved");
     PostDocument 7 7 uploadB;
     PutDocument 20 "DOC-7" Body.empty;
     PutDocument 30 "DOC-5" Body.empty;
     DeleteDocument false "DOC-7"] eq_refl)
    as (doc & times & Ht & Hdoc & Hv & _ & Hh & _).
  - vm_compute. repeat split; lia.
  - exists doc. split; [exact Hdoc|].
    vm_compute in Ht. rewrite Ht in Hv, Hh. split; [exact Hv | exact Hh].
Defined.

Lemma update_entries_snoc (v : Z) (times : list Z) (now : Z) :
  update_entries v (times ++ [now])
  = updateEntry (v + 1 + Z.of_nat (length times)) now :: update_entries v times.
Proof.
  revert v. induction times as [|t rest IH]; intros v.
  - simpl. by rewrite Z.add_0_r.
  - cbn [update_entries app length]. rewrite IH, Nat2Z.inj_succ.
    cbn [app]. do 2 f_equal. lia.
Qed.

Lemma handle_well_versioned `{host : Host} (r : request) (documents : list Doc.t) :
  Forall well_versioned documents -> Forall well_versioned (handle r documents).
Proof.
  intros Hall. destruct r as [now_id now_date req|now id req_body|id status|failed id]; simpl.
  - unfold post_documents. destruct (Upload.file req); [|done]. simpl.
    apply Forall_app. split; [done|]. constructor; [|constructor].
    by exists [].
  - unfold put_document.
    destruct (Js.findIndex (has_id id) documents) as [j|]; [|done].
    destruct (documents !! j) as [orig|] eqn:Ho; [|done]. simpl.
    apply Forall_insert; [done|].
    destruct (proj1 (Forall_lookup _ _) Hall j orig Ho) as (times & Hv & Hh).
    exists (times ++ [now]). simpl. rewrite Hv, Hh, length_app. simpl.
    split; [lia|].
    rewrite update_entries_snoc. simpl. do 2 f_equal. lia.
  - unfold patch_status. destruct (accepted_status status) as [s|]; [|done].
    destruct (Js.findIndex (has_id id) documents) as [j|]; [|done].
    destruct (documents !! j) as [dj|] eqn:Hj; [|done]. simpl.
    apply Forall_insert; [done|].
    by destruct (proj1 (Forall_lookup _ _) Hall j dj Hj) as (times & Hv & Hh); exists times.
  - unfold delete_document.
    destruct (Js.findIndex (has_id id) documents) as [j|]; [|done].
    destruct (documents !! j) as [dj|]; [|done].
    destruct (has_nul (path_join uploadsDir (Doc.fileName dj))); [done|]. simpl.
    by apply Forall_delete.
Qed.

Lemma serve_from_well_versioned `{host : Host} (requests : list request)
    (documents : list Doc.t) :
  Forall well_versioned documents ->
  Forall well_versioned (serve_from documents requests).
Proof.
  revert documents. induction requests as [|r rest IH]; intros documents H; [done|].
  simpl. apply IH. by apply handle_well_versioned.
Qed.

Lemma reachable_well_versioned `{host : Host} (documents : list Doc.t) :
  reachable documents -> Forall well_versioned documents.
Proof.
  intros [requests <-]. apply (serve_from_well_versioned requests []). constructor.
Qed.

(** ** GET /api/stats *)

Lemma of_Z_small (z : Z) :
  (Z.abs z < 9007199254740992)%Z -> Js.of_Z z = Js.Finite z.
Proof.
  intros Hz. unfold Js.of_Z.
  change (2 ^ 53)%Z with 9007199254740992%Z.
  by rewrite (proj2 (Z.ltb_lt _ _) Hz).
Qed.

Lemma bytes_of_nonneg (documents : list Doc.t) :
  Forall (fun doc => (0 <= Doc.fileSize doc)%Z) documents ->
  (0 <= bytes_of documents)%Z.
Proof.
  unfold bytes_of. induction 1 as [|d l Hd _ IH]; [done|].
  rewrite fmap_cons. cbn [foldr]. lia.
Qed.

(** While the sizes are non-negative and their sum is below 2^53, every
    addition of the reduction is exact. *)
Lemma storageUsedInBytes_exact (documents : list Doc.t) :
  Forall (fun doc => (0 <= Doc.fileSize doc)%Z) documents ->
  (bytes_of documents < 9007199254740992)%Z ->
  storageUsedInBytes documents = Js.Finite (bytes_of documents).
Proof.
  unfold storageUsedInBytes, bytes_of.
  assert (H : forall l acc,
    Forall (fun doc => (0 <= Doc.fileSize doc)%Z) l ->
    (0 <= acc)%Z ->
    (acc + foldr Z.add 0%Z (Doc.fileSize <$> l) < 9007199254740992)%Z ->
    fold_left (fun a doc => Js.add a (Js.of_Z (Doc.fileSize doc))) l (Js.Finite acc)
    = Js.Finite (acc + foldr Z.add 0%Z (Doc.fileSize <$> l))).
  { induction l as [|d l IH]; intros acc Hall Hacc Hsum.
    - simpl. by rewrite Z.add_0_r.
    - apply Forall_cons in Hall as [Hd Hl].
      pose proof (bytes_of_nonneg l Hl) as Hnn. unfold bytes_of in Hnn.
      rewrite fmap_cons in *. cbn [foldr fold_left] in *.
      rewrite (of_Z_small (Doc.fileSize d)) by lia. cbn [Js.add].
      rewrite (of_Z_small (acc + Doc.fileSize d)) by lia.
      rewrite IH by (done || lia). f_equal. lia. }
  intros Hall Hsum. by rewrite (H documents 0%Z Hall).
Qed.

(** The sum of doubles depends on the sizes only. *)
Lemma storageUsedInBytes_sizes (l1 l2 : list Doc.t) :
  Doc.fileSize <$> l1 = Doc.fileSize <$> l2 ->
  storageUsedInBytes l1 = storageUsedInBytes l2.
Proof.
  unfold storageUsedInBytes. generalize (Js.Finite 0).
  revert l2. induction l1 as [|d1 l1 IH]; intros [|d2 l2] acc; simpl; try done.
  intros [= Hd Hl]. rewrite Hd. by apply IH.
Qed.

Lemma storageUsedInBytes_snoc (documents : list Doc.t) (doc : Doc.t) :
  storageUsedInBytes (documents ++ [doc])
  = Js.add (storageUsedInBytes documents) (Js.of_Z (Doc.fileSize doc)).
Proof. unfold storageUsedInBytes. by rewrite fold_left_app. Qed.

Lemma pending_count (documents : list Doc.t) :
  length (List.filter (fun doc => String.eqb (Doc.status doc) "pending") documents)
  = length (filter (fun doc => Doc.status doc = "pending") documents).
Proof.
  induction documents as [|d l IH]; simpl; [done|].
  rewrite filter_cons.
  destruct (String.eqb_spec (Doc.status d) "pending") as [He|He];
    destruct (decide (Doc.status d = "pending")); try done.
  simpl. by rewrite IH.
Qed.

(** C4 (amended): the statistics hold the number of records, the number of
    records whose status is pending and, under [storageUsed], the sum of
    the file sizes as a text.  While the sizes are non-negative and their
    sum is below 2^53, the sum of doubles that the handler computes is the
    exact sum, and the text is that sum divided by 2^20 and rounded to the
    nearest hundredth, followed by " MB".  No key of the answer holds the
    number of bytes. *)
Theorem get_stats_counts (documents : list Doc.t) :
  Stats.totalDocuments (get_stats documents) = length documents /\
  Stats.pendingApprovals (get_stats documents)
  = length (filter (fun doc => Doc.status doc = "pending") documents) /\
  Stats.activeUsers (get_stats documents) = 5%Z /\
  (Forall (fun doc => (0 <= Doc.fileSize doc)%Z) documents ->
   (foldr Z.add 0%Z (Doc.fileSize <$> documents) < 9007199254740992)%Z ->
   exists bytes n : Z,
     bytes = foldr Z.add 0%Z (Doc.fileSize <$> documents) /\
     storageUsedInBytes documents = Js.Finite bytes /\
     (0 <= n)%Z /\
     (2 * Z.abs (n * 1048576 - 100 * bytes) <= 1048576)%Z /\
     Stats.storageUsed (get_stats documents)
     = (pretty (n `div` 100)%Z +:+ "."
        +:+ pretty ((n `div` 10) `mod` 10)%Z +:+ pretty (n `mod` 10)%Z) +:+ " MB").
Proof.
  split; [done|]. split; [apply pending_count|]. split; [done|].
  intros Hsizes Hsum.
  pose proof (bytes_of_nonneg documents Hsizes) as Hnn.
  pose proof (storageUsedInBytes_exact documents Hsizes Hsum) as Hexact.
  unfold bytes_of in Hnn, Hexact.
  set (bytes := foldr Z.add 0%Z (Doc.fileSize <$> documents)) in *.
  exists bytes, ((200 * bytes + 1048576) `div` 2097152)%Z.
  split; [done|]. split; [done|].
  pose proof (Z.div_mod (200 * bytes + 1048576) 2097152 ltac:(lia)) as Hdm.
  pose proof (Z.mod_pos_bound (200 * bytes + 1048576) 2097152 ltac:(lia)) as Hm.
  split; [apply Z.div_pos; lia|]. split; [lia|].
  unfold get_stats. cbn [Stats.storageUsed]. rewrite Hexact.
  unfold Js.toFixed2_of_MiB, Js.digit.
  assert ((bytes <? 0)%Z = false) as -> by (apply Z.ltb_ge; lia).
  assert ((Z.abs bytes <? 10 ^ 21 * 1048576)%Z = true) as ->.
  { apply Z.ltb_lt. change (10 ^ 21 * 1048576)%Z with 1048576000000000000000000000%Z. lia. }
  by rewrite Z.abs_eq by done.
Qed.

Lemma get_stats_counts_witness :
  exists bytes n : Z,
    bytes = 3000%Z /\
    storageUsedInBytes [docA; docB] = Js.Finite bytes /\
    (0 <= n)%Z /\
    (2 * Z.abs (n * 1048576 - 100 * bytes) <= 1048576)%Z /\
    Stats.storageUsed (get_stats [docA; docB])
    = (pretty (n `div` 100)%Z +:+ "."
       +:+ pretty ((n `div` 10) `mod` 10)%Z +:+ pretty (n `mod` 10)%Z) +:+ " MB".
Proof.
  destruct (get_stats_counts [docA; docB]) as (_ & _ & _ & Hbytes).
  apply Hbytes.
  - repeat constructor; discriminate.
  - reflexivity.
Defined.

(** C4, as stated, fails: after the uploads of 1000 and 2000 bytes the
    answer's storage value is the text "0.00 MB", and it is the answer
    given for files of 1 and 2 bytes too. *)
Lemma get_stats_has_no_byte_count :
  storageUsedInBytes [docA; docB] = Js.Finite 3000 /\
  get_stats [docA; docB] = Stats.mk 2 2 "0.00 MB" 5 /\
  storageUsedInBytes [docA1; docB2] = Js.Finite 3 /\
  get_stats [docA1; docB2] = get_stats [docA; docB].
Proof. vm_compute. repeat split. Qed.

(** ** DELETE /api/documents/:id *)

Lemma get_document_absent (id : string) (documents : list Doc.t) :
  Forall (fun d => has_id id d = false) documents ->
  get_document id documents = Response 404 (Text "Document not found.").
Proof.
  intros H. unfold get_document. rewrite find_findIndex.
  by rewrite (proj2 (findIndex_None _ _) H).
Qed.

Lemma filterE_sublist {A} (p : A -> result bool) (l r : list A) :
  filterE p l = Ok r -> sublist r l.
Proof.
  revert r. induction l as [|x l IH]; intros r; simpl.
  - intros [= <-]. constructor.
  - destruct (p x) as [b|]; simpl; [|discriminate].
    destruct (filterE p l) as [r'|]; simpl; [|discriminate].
    intros [= <-]. destruct b; [apply sublist_skip | apply sublist_cons]; auto.
Qed.

Lemma when_present_sublist {A} (value : option string) (p : string -> A -> bool)
    (l : list A) :
  sublist (when_present value p l) l.
Proof.
  unfold when_present. destruct value as [v|]; [|done].
  destruct (Js.truthy (Some v)); [|done].
  induction l as [|x l IH]; simpl; [constructor|].
  destruct (p v x); [by apply sublist_skip | by apply sublist_cons].
Qed.

(** The listing is a sublist of the repository: its records, in their
    order of insertion. *)
Lemma filter_documents_sublist (Date_parse : string -> option Z) (query : Query.t)
    (documents r : list Doc.t) :
  filter_documents Date_parse query documents = Ok r -> sublist r documents.
Proof.
  unfold filter_documents. intros H.
  match type of H with (?m ≫= _) = _ => destruct m as [r0|] eqn:H0 end;
    simpl in H; [|discriminate].
  injection H as <-.
  assert (sublist r0 documents) as Hsub.
  { destruct (Query.q query) as [q|]; [|by injection H0 as <-].
    destruct (Js.truthy (Some q)); [|by injection H0 as <-].
    by eapply filterE_sublist. }
  repeat (etrans; [apply when_present_sublist|]). done.
Qed.


Lemma delete_document_thrown `{host : Host} (unlink_failed : bool) (id : string)
    (documents : list Doc.t) (i : nat) (doc : Doc.t) :
  Js.findIndex (has_id id) documents = Some i ->
  documents !! i = Some doc ->
  has_nul (path_join uploadsDir (Doc.fileName doc)) = true ->
  delete_document unlink_failed id documents
  = (Response 500 (Text "Internal Server Error"), documents, []).
Proof. intros Hi Hdoc Hnul. unfold delete_document. by rewrite Hi, Hdoc, Hnul. Qed.



(** C9: the code at two inputs.  After a PUT stored a file name with a NUL
    byte, [fs.unlink] throws before the splice: the DELETE is answered
    with 500, the record stays and GET by id still returns it, where the
    handler's own comment says that a failure to delete the file must not
    block the deletion of the record.  After the same upload was served
    twice within one millisecond, the DELETE is answered with 204 and
    removes one of the two equal records, and the document is still what
    GET by id and the listing return. *)
Theorem delete_document_keeps_record :
  has_nul (@path_join sampleHost (@uploadsDir sampleHost)
             (Doc.fileName (updatedDocument 10 docA bodyNulName)))
  = true /\
  serve_from (host := sampleHost) [docA; docB] [PutDocument 10 "DOC-5" bodyNulName]
  = [updatedDocument 10 docA bodyNulName; docB] /\
  delete_document (host := sampleHost) false "DOC-5"
    [updatedDocument 10 docA bodyNulName; docB]
  = (Response 500 (Text "Internal Server Error"),
     [updatedDocument 10 docA bodyNulName; docB], []) /\
  get_document "DOC-5" [updatedDocument 10 docA bodyNulName; docB]
  = Response 200 (JsonDocument (updatedDocument 10 docA bodyNulName)) /\
  serve (host := sampleHost) [PostDocument 5 5 uploadA; PostDocument 5 5 uploadA]
  = [docA; docA] /\
  delete_document (host := sampleHost) true "DOC-5" [docA; docA]
  = (Response 204 NoContent, [docA], ["Failed to delete physical file:"]) /\
  get_document "DOC-5" [docA] = Response 200 (JsonDocument docA) /\
  get_documents (fun _ => None) Query.empty [docA]
  = Response 200 (JsonDocuments [docA]).
Proof. vm_compute. repeat split. Qed.

(** ** GET /api/activities *)

Lemma insert_Permutation {A} (comparefn : A -> A -> option Z) (x : A) (l : list A) :
  Js.insert comparefn x l ≡ₚ x :: l.
Proof.
  induction l as [|y r IH]; simpl; [done|].
  destruct (0 <? Js.sortCompare comparefn x y)%Z; [|done].
  rewrite IH. apply Permutation_swap.
Qed.

(** Whatever the comparator returns, sorting only reorders. *)
Lemma sort_Permutation {A} (comparefn : A -> A -> option Z) (l : list A) :
  Js.sort comparefn l ≡ₚ l.
Proof.
  induction l as [|x r IH]; simpl; [done|].
  by rewrite insert_Permutation, IH.
Qed.

Lemma insert_by_date_sorted (x : Activity.t) (l : list Activity.t) :
  time_of x <> None ->
  Forall (fun a => time_of a <> None) l ->
  StronglySorted not_older l ->
  StronglySorted not_older (Js.insert by_date x l).
Proof.
  intros Hx Hl Hs. induction Hs as [|y r Hs IH Hy]; simpl.
  - by repeat constructor.
  - apply Forall_cons in Hl as [Hty Hr].
    unfold Js.sortCompare, by_date, Js.sub. fold (time_of y) (time_of x).
    destruct (time_of x) as [tx|] eqn:Etx; [|done].
    destruct (time_of y) as [ty|] eqn:Ety; [|done].
    destruct (Z.ltb_spec 0 (ty - tx)) as [Hlt|Hge].
    + constructor; [by apply IH|].
      rewrite insert_Permutation. constructor; [|done].
      exists ty, tx. repeat split; [done..|lia].
    + constructor; [by constructor|].
      constructor; [exists tx, ty; repeat split; [done..|lia]|].
      eapply List.Forall_impl; [|exact Hy].
      intros z (ty' & tz & Hy' & Hz & Hle). exists tx, tz.
      rewrite Ety in Hy'. injection Hy' as <-. repeat split; [done..|lia].
Qed.

Lemma sort_by_date_sorted (l : list Activity.t) :
  Forall (fun a => time_of a <> None) l ->
  StronglySorted not_older (Js.sort by_date l).
Proof.
  induction 1 as [|x r Hx Hr IH]; simpl; [constructor|].
  apply insert_by_date_sorted; [done| |done].
  by rewrite sort_Permutation.
Qed.

(** Where every history entry carries a date, the handler does return the
    five newest activities, newest first. *)
Lemma get_activities_dated (documents : list Doc.t) :
  Forall (fun a => time_of a <> None) (allActivities documents) ->
  exists sorted,
    sorted ≡ₚ allActivities documents /\
    StronglySorted not_older sorted /\
    get_activities documents = take 5 sorted.
Proof.
  intros H. exists (Js.sort by_date (allActivities documents)).
  split; [apply sort_Permutation|]. split; [by apply sort_by_date_sorted | done].
Qed.

(** An uploaded document's initial entry has no date. *)
Lemma initialEntry_undated : Js.getTime (Entry.date initialEntry) = None.
Proof. reflexivity. Qed.

(** After one upload and one update of its title the entry of the update
    is in front of the entry of the upload, as in the history. *)
Lemma get_activities_after_update `{host : Host} :
  activity_line <$> get_activities
    (serve [PostDocument 5 5 uploadA; PutDocument 10 "DOC-5" (bodyTitle "Budget 2")])
  = [("Metadata updated", Some 10%Z, "DOC-5"); ("Initial upload", None, "DOC-5")].
Proof. reflexivity. Qed.

(** C5: the code at two inputs.  After two documents were uploaded and
    updated, the second one later, the activities come back as they were
    flattened: the entry dated 10 is in front of the entry dated 20,
    because the comparator returns NaN against an initial entry, which has
    no date.  After six uploads the five activities are those of the five
    oldest documents, in order of upload, and the newest is left out. *)
Theorem get_activities_not_by_date `{host : Host} :
  activity_line <$> get_activities twoUpdated
  = [("Metadata updated", Some 10%Z, "DOC-5");
     ("Initial upload", None, "DOC-5");
     ("Metadata updated", Some 20%Z, "DOC-7");
     ("Initial upload", None, "DOC-7")] /\
  get_activities twoUpdated = allActivities twoUpdated /\
  (fun a => by_date a <$> get_activities twoUpdated) <$> get_activities twoUpdated
  = [[Some 0%Z; None; Some 10%Z; None];
     [None; None; None; None];
     [Some (-10)%Z; None; Some 0%Z; None];
     [None; None; None; None]] /\
  Doc.uploadDate <$> sixUploads = [1; 2; 3; 4; 5; 6]%Z /\
  activity_line <$> get_activities sixUploads
  = [("Initial upload", None, "DOC-1"); ("Initial upload", None, "DOC-2");
     ("Initial upload", None, "DOC-3"); ("Initial upload", None, "DOC-4");
     ("Initial upload", None, "DOC-5")].
Proof. vm_compute. repeat split. Qed.

(** ** GET /api/documents *)

Lemma filter_true {A} (l : list A) : List.filter (fun _ => true) l = l.
Proof. induction l as [|x l IH]; simpl; [done | by rewrite IH]. Qed.

Lemma filter_twice {A} (p q : A -> bool) (l : list A) :
  List.filter q (List.filter p l) = List.filter (fun x => p x && q x) l.
Proof.
  induction l as [|x l IH]; simpl; [done|].
  destruct (p x); simpl; [|done]. destruct (q x); by rewrite IH.
Qed.

Lemma when_present_holds {A} (value : option string) (p : string -> A -> bool)
    (l : list A) :
  when_present value p l = List.filter (holds value p) l.
Proof.
  unfold when_present, holds. destruct value as [v|]; [|by rewrite filter_true].
  destruct (Js.truthy (Some v)); [done | by rewrite filter_true].
Qed.

Lemma filterE_returns {A} (p : A -> result bool) (l : list A) :
  Forall (fun x => exists b, p x = Ok b) l ->
  filterE p l = Ok (List.filter (returns_true p) l).
Proof.
  induction 1 as [|x l [b Hb] _ IH]; simpl; [done|].
  unfold returns_true at 1. rewrite Hb, IH. simpl. by destruct b.
Qed.

Lemma filterE_Ok {A} (p : A -> result bool) (l r : list A) :
  filterE p l = Ok r -> Forall (fun x => exists b, p x = Ok b) l.
Proof.
  revert r. induction l as [|x l IH]; intros r; simpl; [constructor|].
  destruct (p x) as [b|] eqn:Hb; simpl; [|discriminate].
  destruct (filterE p l) as [r'|]; simpl; [|discriminate].
  intros _. constructor; eauto.
Qed.

(** The callback of the [q] filter returns exactly when the title is a
    string and either the title matches or the description is a string. *)
Lemma matches_q_returns (searchTerm : string) (doc : Doc.t) :
  (exists b, matches_q searchTerm doc = Ok b) <->
  Doc.title doc <> None /\
  (Doc.description doc <> None \/
   exists t, Doc.title doc = Some t /\
             Js.includes (Js.toLowerCase t) searchTerm = true).
Proof.
  unfold matches_q. destruct (Doc.title doc) as [t|]; simpl.
  - destruct (Js.includes (Js.toLowerCase t) searchTerm) eqn:Ht.
    + split; [|by eauto]. intros _. split; [done|]. right. eauto.
    + destruct (Doc.description doc) as [d|]; simpl.
      * split; [intros _; split; [done | by left]|].
        intros _. destruct (Js.includes (Js.toLowerCase d) searchTerm); eauto.
      * split; [intros [b [=]]|]. intros [_ [H|(t' & [= <-] & H)]]; congruence.
  - split; [intros [b [=]] | intros [H _]; congruence].
Qed.

Lemma filter_documents_unfold (Date_parse : string -> option Z) (query : Query.t)
    (documents : list Doc.t) :
  filter_documents Date_parse query documents
  = (match Query.q query with
     | Some q =>
         if Js.truthy (Some q)
         then filterE (matches_q (Js.toLowerCase q)) documents
         else Ok documents
     | None => Ok documents
     end ≫= fun r0 =>
     Ok (List.filter
           (fun doc =>
              holds (Query.category query) (fun v doc => field_is (Doc.category doc) v) doc
              && holds (Query.department query)
                   (fun v doc => field_is (Doc.department doc) v) doc
              && holds (Query.status query)
                   (fun v doc => String.eqb (Doc.status doc) v) doc
              && holds (Query.confidentiality query)
                   (fun v doc => field_is (Doc.confidentiality doc) v) doc
              && holds (Query.dateFrom query) (not_before Date_parse) doc
              && holds (Query.dateTo query) (not_after Date_parse) doc) r0)).
Proof.
  unfold filter_documents.
  match goal with |- (?m ≫= _) = _ => destruct m as [r0|] end; [|done].
  cbv zeta. unfold mbind, result_bind.
  rewrite !when_present_holds, !filter_twice.
  f_equal. apply filter_ext. intros d. by rewrite !andb_assoc.
Qed.

(** A listing that returns is the repository filtered by the conjunction of
    the criteria that are present. *)
Lemma filter_documents_returns (Date_parse : string -> option Z) (query : Query.t)
    (documents : list Doc.t) :
  q_returns query documents ->
  filter_documents Date_parse query documents
  = Ok (List.filter (satisfies Date_parse query) documents).
Proof.
  intros Hq. rewrite filter_documents_unfold. unfold q_returns in Hq.
  unfold satisfies. destruct (Query.q query) as [q|]; simpl in *.
  - destruct (negb (String.eqb q "")) eqn:Hne; simpl.
    + rewrite filterE_returns.
      * simpl. rewrite filter_twice. f_equal. apply filter_ext. intros d.
        by rewrite !andb_assoc.
      * eapply List.Forall_impl; [|apply Hq; done]. intros d Hd.
        by apply matches_q_returns.
    + done.
  - done.
Qed.

Lemma filter_documents_Ok (Date_parse : string -> option Z) (query : Query.t)
    (documents r : list Doc.t) :
  filter_documents Date_parse query documents = Ok r ->
  q_returns query documents.
Proof.
  rewrite filter_documents_unfold. unfold q_returns.
  destruct (Query.q query) as [q|]; simpl; [|discriminate].
  intros H Hne. rewrite Hne in H.
  destruct (filterE (matches_q (Js.toLowerCase q)) documents) as [r0|] eqn:H0;
    simpl in H; [|discriminate].
  eapply List.Forall_impl; [|eapply filterE_Ok, H0]. intros d Hd.
  by apply matches_q_returns.
Qed.

Lemma holds_either {A} (a b : option string) (p : string -> A -> bool) (x : A) :
  agree a b -> holds (either a b) p x = holds a p x && holds b p x.
Proof.
  unfold agree, either, holds.
  destruct a as [a|], b as [b|]; simpl;
    destruct (negb (String.eqb a "")) eqn:Ha || idtac;
    destruct (negb (String.eqb b "")) eqn:Hb || idtac;
    simpl; rewrite ?Ha, ?Hb, ?andb_true_r; try done.
  intros [?|[?|[= ->]]]; try done. by rewrite andb_diag.
Qed.

Lemma satisfies_both (Date_parse : string -> option Z) (q1 q2 : Query.t) (doc : Doc.t) :
  compatible q1 q2 ->
  satisfies Date_parse (both q1 q2) doc
  = satisfies Date_parse q1 doc && satisfies Date_parse q2 doc.
Proof.
  intros (Hq & Hc & Hd & Hs & Hf & Hfrom & Hto). unfold satisfies, both. simpl.
  rewrite !holds_either by done.
  repeat match goal with |- context [holds ?v ?p doc] =>
    let b := fresh "b" in generalize (holds v p doc); intros b end.
  repeat match goal with b : bool |- _ => destruct b; try done end.
Qed.

Lemma q_returns_both (q1 q2 : Query.t) (documents : list Doc.t) :
  compatible q1 q2 ->
  q_returns (both q1 q2) documents <->
  q_returns q1 documents /\ q_returns q2 documents.
Proof.
  intros (Hq & _). unfold q_returns, both, either, agree in *. simpl.
  destruct (Js.truthy (Query.q q1)) eqn:H1.
  - rewrite H1. destruct Hq as [?|[H2| ->]]; [done| |tauto].
    rewrite H2. split; [intros H; split; [done | discriminate] | tauto].
  - split; [intros H; split; [discriminate | done] | tauto].
Qed.

Lemma intersection_filter (p1 p2 : Doc.t -> bool) (documents : list Doc.t) :
  intersection (List.filter p1 documents) (List.filter p2 documents)
  = List.filter (fun d => p1 d && p2 d) documents.
Proof.
  unfold intersection. rewrite <- filter_twice.
  apply filter_ext_in. intros d Hd. apply filter_In in Hd as [Hd _].
  destruct (p2 d) eqn:Hp.
  - apply bool_decide_eq_true. apply list_elem_of_In, filter_In. done.
  - apply bool_decide_eq_false. rewrite list_elem_of_In, filter_In. intros [_ ?]. congruence.
Qed.

(** C7: a listing without criteria returns the repository as it is; a
    listing that returns is the repository filtered by the conjunction of
    its criteria (an absent or empty criterion holds of every record), in
    the order of insertion; and for two queries whose criteria do not
    contradict each other, the listing under both returns exactly when each
    one's does, and is then the intersection of the two listings. *)
Theorem list_criteria_intersect (Date_parse : string -> option Z)
    (q1 q2 : Query.t) (documents : list Doc.t) :
  compatible q1 q2 ->
  filter_documents Date_parse Query.empty documents = Ok documents /\
  get_documents Date_parse Query.empty documents
  = Response 200 (JsonDocuments documents) /\
  (forall query r,
     filter_documents Date_parse query documents = Ok r ->
     r = List.filter (satisfies Date_parse query) documents /\ sublist r documents) /\
  (forall r1 r2,
     filter_documents Date_parse q1 documents = Ok r1 ->
     filter_documents Date_parse q2 documents = Ok r2 ->
     filter_documents Date_parse (both q1 q2) documents = Ok (intersection r1 r2)) /\
  (forall r,
     filter_documents Date_parse (both q1 q2) documents = Ok r ->
     exists r1 r2,
       filter_documents Date_parse q1 documents = Ok r1 /\
       filter_documents Date_parse q2 documents = Ok r2 /\
       r = intersection r1 r2).
Proof.
  intros Hcompat.
  assert (Hspec : forall query r,
    filter_documents Date_parse query documents = Ok r ->
    r = List.filter (satisfies Date_parse query) documents).
  { intros query r Hr. pose proof (filter_documents_Ok _ _ _ _ Hr) as Hq.
    rewrite (filter_documents_returns Date_parse _ _ Hq) in Hr. congruence. }
  assert (Hboth : List.filter (satisfies Date_parse (both q1 q2)) documents
    = intersection (List.filter (satisfies Date_parse q1) documents)
                   (List.filter (satisfies Date_parse q2) documents)).
  { rewrite intersection_filter. apply filter_ext. intros d.
    by apply satisfies_both. }
  split; [done|]. split; [done|].
  split; [|split].
  - intros query r Hr. split; [by apply Hspec|].
    by eapply filter_documents_sublist.
  - intros r1 r2 H1 H2.
    rewrite (Hspec _ _ H1), (Hspec _ _ H2), <- Hboth.
    apply filter_documents_returns, q_returns_both; [done|].
    split; by eapply filter_documents_Ok.
  - intros r Hr. pose proof (filter_documents_Ok _ _ _ _ Hr) as Hq.
    apply q_returns_both in Hq as [Hq1 Hq2]; [|done].
    exists (List.filter (satisfies Date_parse q1) documents),
           (List.filter (satisfies Date_parse q2) documents).
    split; [by apply filter_documents_returns|].
    split; [by apply filter_documents_returns|].
    rewrite <- Hboth. by apply Hspec.
Qed.

Lemma list_criteria_intersect_witness :
  both queryFinance queryPending
  = Query.mk None (Some "finance") None (Some "pending") None None None /\
  filter_documents (fun _ => None) (both queryFinance queryPending)
    [docA; docB; docA1] = Ok [docA; docA1] /\
  filter_documents (fun _ => None) queryFinance [docA; docB; docA1]
  = Ok [docA; docA1] /\
  filter_documents (fun _ => None) queryPending [docA; docB; docA1]
  = Ok [docA; docB; docA1].
Proof.
  pose proof (list_criteria_intersect (fun _ => None) queryFinance queryPending
    [docA; docB; docA1]) as H.
  destruct H as (_ & _ & _ & Hboth & _).
  - repeat split; (left; reflexivity) || (right; left; reflexivity).
  - split; [reflexivity|]. split; [|split; vm_compute; reflexivity].
    rewrite (Hboth [docA; docA1] [docA; docB; docA1]); vm_compute; reflexivity.
Defined.

(** ** The free-text filter and records without a title *)

Lemma prefix_length (s1 s2 : string) :
  String.prefix s1 s2 = true -> (String.length s1 <= String.length s2)%nat.
Proof.
  revert s2. induction s1 as [|c s1 IH]; intros [|c2 s2]; simpl; try lia; try done.
  destruct (Ascii.ascii_dec c c2); [|done]. intros H. apply IH in H. lia.
Qed.

Lemma includes_length (hay needle : string) :
  Js.includes hay needle = true -> (String.length needle <= String.length hay)%nat.
Proof.
  induction hay as [|c hay IH]; cbn [Js.includes].
  - rewrite orb_false_r. apply prefix_length.
  - intros [H|H]%orb_true_iff; [by apply prefix_length in H|].
    apply IH in H. simpl. lia.
Qed.

Lemma toLowerCase_length (s : string) :
  String.length (Js.toLowerCase s) = String.length s.
Proof. induction s as [|c s IH]; simpl; [done | by rewrite IH]. Qed.

(** C10: the listing by [q] returns for every non-empty [q] exactly when
    every record has a title and a description; the upload stores both as
    received, so an upload without a title leads to a repository on which
    the listing by [q] throws (status 500) where it should list. *)
Theorem q_filter_needs_title_and_description `{host : Host} :
  (forall Date_parse documents,
     (forall q, Js.truthy (Some q) = true ->
        exists r, filter_documents Date_parse (query_q q) documents = Ok r) <->
     Forall (fun doc => Doc.title doc <> None /\ Doc.description doc <> None)
            documents) /\
  (Upload.title uploadUntitled = None /\
   reachable (serve [PostDocument 5 5 uploadUntitled]) /\
   Doc.title <$> serve [PostDocument 5 5 uploadUntitled] = [None] /\
   filter_documents (fun _ => None) (query_q "scan")
     (serve [PostDocument 5 5 uploadUntitled]) = Threw TypeError /\
   get_documents (fun _ => None) (query_q "scan")
     (serve [PostDocument 5 5 uploadUntitled])
   = Response 500 (Text "Internal Server Error")) /\
  (Upload.description uploadUndescribed = None /\
   Doc.description <$> serve [PostDocument 5 5 uploadUndescribed] = [None] /\
   filter_documents (fun _ => None) (query_q "lease")
     (serve [PostDocument 5 5 uploadUndescribed]) = Threw TypeError /\
   filter_documents (fun _ => None) (query_q "SCAN")
     (serve [PostDocument 5 5 uploadUndescribed])
   = Ok (serve [PostDocument 5 5 uploadUndescribed])).
Proof.
  split; [|split].
  - intros Date_parse documents. split.
    + intros Hall. apply list.Forall_forall. intros d Hd.
      assert (Hret : forall q, Js.truthy (Some q) = true ->
        Doc.title d <> None /\
        (Doc.description d <> None \/
         exists t, Doc.title d = Some t /\
           Js.includes (Js.toLowerCase t) (Js.toLowerCase q) = true)).
      { intros q Hq. destruct (Hall q Hq) as [r Hr].
        apply filter_documents_Ok in Hr.
        by apply (proj1 (list.Forall_forall _ _) (Hr Hq) d Hd). }
      destruct (Hret "x" eq_refl) as [Ht _]. split; [done|].
      destruct (Doc.title d) as [t|] eqn:Htitle; [|done].
      destruct (Hret (String "x" t) eq_refl) as [_ [Hd'|(t' & [= <-] & Hinc)]]; [done|].
      apply includes_length in Hinc. simpl in Hinc.
      rewrite !toLowerCase_length in Hinc. lia.
    + intros Hall q Hq. eexists. apply filter_documents_returns.
      intros _. eapply List.Forall_impl; [|exact Hall].
      intros d [Ht Hd]. simpl. tauto.
  - split; [done|]. split; [by eexists|]. by vm_compute.
  - by vm_compute.
Qed.

(** * Further properties of the handlers *)

(** ** Lookups by id *)

Lemma findIndex_app {A} (p : A -> bool) (l1 l2 : list A) :
  Js.findIndex p (l1 ++ l2)
  = match Js.findIndex p l1 with
    | Some i => Some i
    | None => (fun j => (length l1 + j)%nat) <$> Js.findIndex p l2
    end.
Proof.
  induction l1 as [|x l1 IH]; simpl.
  - by destruct (Js.findIndex p l2).
  - destruct (p x); [done|]. rewrite IH.
    destruct (Js.findIndex p l1); [done|].
    by destruct (Js.findIndex p l2).
Qed.

Lemma findIndex_insert_same {A} (p : A -> bool) (l : list A) (i : nat) (x x' : A) :
  l !! i = Some x -> p x' = p x ->
  Js.findIndex p (<[i := x']> l) = Js.findIndex p l.
Proof.
  revert i. induction l as [|a l IH]; intros [|i]; simpl; try done.
  - intros [= ->] ->. done.
  - intros Hx Hp. by rewrite (IH i Hx Hp).
Qed.

Lemma get_document_found (id : string) (documents : list Doc.t) (i : nat) (doc : Doc.t) :
  Js.findIndex (has_id id) documents = Some i ->
  documents !! i = Some doc ->
  get_document id documents = Response 200 (JsonDocument doc).
Proof.
  intros Hi Hdoc. unfold get_document. rewrite find_findIndex, Hi. simpl.
  by rewrite Hdoc.
Qed.

(** X1: GET /api/documents/:id answers 404 exactly when no record carries
    the id; otherwise it answers 200 with the first record that carries
    it, which is the record at the index that PUT, PATCH and DELETE
    resolve the id to. *)
Theorem get_document_first (id : string) (documents : list Doc.t) :
  (get_document id documents = Response 404 (Text "Document not found.") <->
   Forall (fun doc => Doc.id doc <> id) documents) /\
  (forall i, Js.findIndex (has_id id) documents = Some i ->
     exists doc,
       documents !! i = Some doc /\ Doc.id doc = id /\
       get_document id documents = Response 200 (JsonDocument doc) /\
       forall j other, (j < i)%nat -> documents !! j = Some other ->
                       Doc.id other <> id).
Proof.
  split.
  - unfold get_document. rewrite find_findIndex.
    destruct (Js.findIndex (has_id id) documents) as [i|] eqn:Hi; simpl.
    + destruct (findIndex_Some _ _ _ Hi) as (doc & Hdoc & Hid & _).
      rewrite Hdoc. split; [discriminate|]. intros Hall.
      apply String.eqb_eq in Hid. exfalso.
      by apply (proj1 (Forall_lookup _ _) Hall i doc Hdoc).
    + split; [|done]. intros _. apply findIndex_None in Hi.
      eapply List.Forall_impl; [|exact Hi].
      intros d Hd. by apply String.eqb_neq.
  - intros i Hi. destruct (findIndex_Some _ _ _ Hi) as (doc & Hdoc & Hid & Hlt).
    exists doc. split; [done|]. split; [by apply String.eqb_eq|].
    split; [by eapply get_document_found|].
    intros j other Hj Ho. apply String.eqb_neq. by eapply Hlt.
Qed.

(** X2: a PUT, a PATCH with a valid status and a DELETE for an id that no
    record carries are answered with 404 "Document not found." and leave
    the repository as it was; the DELETE writes nothing to the console,
    whatever [fs.unlink] would have done. *)
Theorem unknown_id_not_found `{host : Host} (now : Z) (id : string) (req_body : Body.t)
    (unlink_failed : bool) (documents : list Doc.t) :
  Forall (fun doc => Doc.id doc <> id) documents ->
  put_document now id req_body documents
  = (Response 404 (Text "Document not found."), documents) /\
  patch_status id (JString "approved") documents
  = (Response 404 (Text "Document not found."), documents) /\
  patch_status id (JString "rejected") documents
  = (Response 404 (Text "Document not found."), documents) /\
  delete_document unlink_failed id documents
  = (Response 404 (Text "Document not found."), documents, []).
Proof.
  intros Hall.
  assert (Hi : Js.findIndex (has_id id) documents = None).
  { apply findIndex_None. eapply List.Forall_impl; [|exact Hall].
    intros d Hd. by apply String.eqb_neq. }
  unfold put_document, patch_status, delete_document. simpl. by rewrite Hi.
Qed.

Lemma unknown_id_not_found_witness :
  put_document 10 "DOC-6" (bodyTitle "Budget 2") [docA; docB]
  = (Response 404 (Text "Document not found."), [docA; docB]) /\
  delete_document (host := sampleHost) true "DOC-6" [docA; docB]
  = (Response 404 (Text "Document not found."), [docA; docB], []).
Proof.
  destruct (unknown_id_not_found (host := sampleHost) 10 "DOC-6" (bodyTitle "Budget 2")
              true [docA; docB])
    as (Hput & _ & _ & Hdel).
  - repeat constructor; discriminate.
  - split; [exact Hput | exact Hdel].
Defined.

(** X3: after a PUT that finds a record and whose body has no key [id], a
    GET by the same id answers with the record the PUT answered with, and
    a second PUT by that id finds the same record again. *)
Theorem put_then_get (now : Z) (id : string) (req_body : Body.t)
    (documents : list Doc.t) (i : nat) :
  Js.findIndex (has_id id) documents = Some i ->
  Body.id req_body = None ->
  exists doc,
    (put_document now id req_body documents).1 = Response 200 (JsonDocument doc) /\
    get_document id (put_document now id req_body documents).2
    = Response 200 (JsonDocument doc) /\
    Js.findIndex (has_id id) (put_document now id req_body documents).2 = Some i.
Proof.
  intros Hi Hid.
  destruct (put_document_found now id req_body documents i Hi) as (orig & Ho & Hhas & ->).
  exists (updatedDocument now orig req_body). simpl.
  assert (Hsame : Js.findIndex (has_id id)
            (<[i := updatedDocument now orig req_body]> documents) = Some i).
  { rewrite (findIndex_insert_same _ _ _ orig); [done..|].
    unfold has_id. simpl. by rewrite Hid. }
  split; [done|]. split; [|done].
  eapply get_document_found; [exact Hsame|].
  apply list_lookup_insert_eq. by eapply lookup_lt_Some.
Qed.

Lemma put_then_get_witness :
  exists doc,
    (put_document 10 "DOC-7" (bodyTitle "Lease 2") [docA; docB]).1
    = Response 200 (JsonDocument doc) /\
    get_document "DOC-7" (put_document 10 "DOC-7" (bodyTitle "Lease 2") [docA; docB]).2
    = Response 200 (JsonDocument doc) /\
    Doc.title doc = Some "Lease 2".
Proof.
  destruct (put_then_get 10 "DOC-7" (bodyTitle "Lease 2") [docA; docB] 1)
    as (doc & Hput & Hget & _).
  - vm_compute; reflexivity.
  - reflexivity.
  - exists doc. split; [exact Hput|]. split; [exact Hget|].
    vm_compute in Hput. injection Hput as <-. reflexivity.
Defined.

(** X4: after a PATCH with a valid status that finds a record, a GET by
    the same id answers with that record under its new status. *)
Theorem patch_then_get (id s : string) (documents : list Doc.t) (i : nat) :
  s = "approved" \/ s = "rejected" ->
  Js.findIndex (has_id id) documents = Some i ->
  exists doc,
    documents !! i = Some doc /\
    get_document id (patch_status id (JString s) documents).2
    = Response 200 (JsonDocument (with_status s doc)) /\
    Doc.status (with_status s doc) = s.
Proof.
  intros Hs Hi. destruct (findIndex_lookup _ _ _ Hi) as [doc Hdoc].
  exists doc. split; [done|]. split; [|done].
  unfold patch_status.
  assert (accepted_status (JString s) = Some s) as ->
    by (apply accepted_status_Some; auto).
  rewrite Hi, Hdoc. simpl.
  eapply get_document_found.
  - by rewrite (findIndex_insert_same _ _ _ doc).
  - apply list_lookup_insert_eq. by eapply lookup_lt_Some.
Qed.

Lemma patch_then_get_witness :
  get_document "DOC-5" (patch_status "DOC-5" (JString "rejected") [docA; docB]).2
  = Response 200 (JsonDocument (with_status "rejected" docA)).
Proof.
  destruct (patch_then_get "DOC-5" "rejected" [docA; docB] 0)
    as (doc & Hdoc & Hget & _).
  - right; reflexivity.
  - vm_compute; reflexivity.
  - injection Hdoc as <-. exact Hget.
Defined.

(** X5: after an upload with a file, a GET by the new record's id answers
    200; it answers with the new record when no stored record carried that
    id, and with the older record when one did (the new record is then out
    of reach of every request by id). *)
Theorem post_then_get (now_id now_date : Z) (req : Upload.t) (file : File.t)
    (documents : list Doc.t) :
  Upload.file req = Some file ->
  (Forall (fun doc => Doc.id doc <> "DOC-" +:+ pretty now_id) documents ->
   get_document ("DOC-" +:+ pretty now_id)
     (post_documents now_id now_date req documents).2
   = Response 200 (JsonDocument (newDocument now_id now_date req file))) /\
  (forall i, Js.findIndex (has_id ("DOC-" +:+ pretty now_id)) documents = Some i ->
     Js.findIndex (has_id ("DOC-" +:+ pretty now_id))
       (post_documents now_id now_date req documents).2 = Some i /\
     get_document ("DOC-" +:+ pretty now_id)
       (post_documents now_id now_date req documents).2
     = get_document ("DOC-" +:+ pretty now_id) documents).
Proof.
  intros Hfile. unfold post_documents. rewrite Hfile. simpl.
  set (doc := newDocument now_id now_date req file).
  assert (Hnew : has_id ("DOC-" +:+ pretty now_id) doc = true)
    by apply String.eqb_refl.
  split.
  - intros Hall.
    assert (Hnone : Js.findIndex (has_id ("DOC-" +:+ pretty now_id)) documents = None).
    { apply findIndex_None. eapply List.Forall_impl; [|exact Hall].
      intros d Hd. by apply String.eqb_neq. }
    eapply (get_document_found _ _ (length documents)).
    + rewrite findIndex_app, Hnone. simpl. rewrite Hnew. simpl. f_equal. lia.
    + by rewrite list_lookup_middle.
  - intros i Hi.
    assert (Hi' : Js.findIndex (has_id ("DOC-" +:+ pretty now_id)) (documents ++ [doc])
                  = Some i) by (by rewrite findIndex_app, Hi).
    split; [done|].
    destruct (findIndex_lookup _ _ _ Hi) as [d Hd].
    rewrite (get_document_found _ _ i d Hi Hd).
    eapply get_document_found; [exact Hi'|].
    rewrite lookup_app_l; [done | by eapply lookup_lt_Some].
Qed.

Lemma post_then_get_witness :
  get_document "DOC-7" (post_documents 7 7 uploadB [docA]).2
  = Response 200 (JsonDocument docB) /\
  get_document "DOC-5" (post_documents 5 6 uploadB [docA]).2
  = Response 200 (JsonDocument docA).
Proof.
  destruct (post_then_get 7 7 uploadB fileB [docA] eq_refl) as [Hfresh _].
  destruct (post_then_get 5 6 uploadB fileB [docA] eq_refl) as [_ Hold].
  split.
  - apply Hfresh. repeat constructor. discriminate.
  - destruct (Hold 0%nat) as [_ Hget]; [vm_compute; reflexivity|].
    transitivity (get_document "DOC-5" [docA]); [exact Hget|].
    vm_compute; reflexivity.
Defined.

(** ** What an update and a status change leave alone *)

(** X6: a PUT that finds a record replaces that record only: the
    repository keeps its length and every other record.  The new version
    is the old one plus one and the new history is the old one behind one
    new entry, whatever the body holds under [version] and [history]; a
    metadata key that the body lacks keeps its stored value, and a body
    without keys changes nothing but [version] and [history]. *)
Theorem put_document_merge (now : Z) (id : string) (req_body : Body.t)
    (documents : list Doc.t) (i : nat) :
  Js.findIndex (has_id id) documents = Some i ->
  exists originalDocument doc,
    documents !! i = Some originalDocument /\
    put_document now id req_body documents
    = (Response 200 (JsonDocument doc), <[i := doc]> documents) /\
    length (<[i := doc]> documents) = length documents /\
    (forall j, j <> i -> <[i := doc]> documents !! j = documents !! j) /\
    Doc.version doc = (Doc.version originalDocument + 1)%Z /\
    Doc.history doc
    = updateEntry (Doc.version originalDocument + 1) now
      :: Doc.history originalDocument /\
    (Body.title req_body = None -> Doc.title doc = Doc.title originalDocument) /\
    (Body.description req_body = None ->
     Doc.description doc = Doc.description originalDocument) /\
    (Body.category req_body = None -> Doc.category doc = Doc.category originalDocument) /\
    (Body.department req_body = None ->
     Doc.department doc = Doc.department originalDocument) /\
    (Body.confidentiality req_body = None ->
     Doc.confidentiality doc = Doc.confidentiality originalDocument) /\
    (Body.tags req_body = None -> Doc.tags doc = Doc.tags originalDocument) /\
    (Body.uploadDate req_body = None ->
     Doc.uploadDate doc = Doc.uploadDate originalDocument) /\
    (Body.status req_body = None -> Doc.status doc = Doc.status originalDocument) /\
    (Body.uploadedBy req_body = None ->
     Doc.uploadedBy doc = Doc.uploadedBy originalDocument) /\
    (req_body = Body.empty ->
     doc = updatedDocument now originalDocument Body.empty /\
     Doc.title doc = Doc.title originalDocument /\
     Doc.tags doc = Doc.tags originalDocument /\
     Doc.status doc = Doc.status originalDocument /\
     Doc.id doc = Doc.id originalDocument /\
     Doc.fileName doc = Doc.fileName originalDocument).
Proof.
  intros Hi.
  destruct (put_document_found now id req_body documents i Hi) as (orig & Ho & _ & Hput).
  exists orig, (updatedDocument now orig req_body).
  split; [done|]. split; [done|]. split; [apply length_insert|].
  split; [intros j Hj; by apply list_lookup_insert_ne|].
  simpl. split; [done|]. split; [done|].
  repeat (split; [by intros ->|]).
  by intros ->.
Qed.

Lemma put_document_merge_witness :
  exists doc,
    put_document 10 "DOC-5" bodyWithFileKeys [docA; docB]
    = (Response 200 (JsonDocument doc), [doc; docB]) /\
    Doc.version doc = 2%Z /\
    Doc.history doc = [updateEntry 2 10; initialEntry] /\
    Doc.title doc = Some "Budget" /\ Doc.tags doc = ["q1"; "money"].
Proof.
  destruct (put_document_merge 10 "DOC-5" bodyWithFileKeys [docA; docB] 0)
    as (orig & doc & Ho & Hput & _ & _ & Hv & Hh & Ht & _ & _ & _ & _ & Htags & _).
  - vm_compute; reflexivity.
  - injection Ho as <-. exists doc.
    split; [exact Hput|]. split; [exact Hv|]. split; [exact Hh|].
    split; [exact (Ht eq_refl) | exact (Htags eq_refl)].
Defined.

(** X7: of two PATCHes with valid statuses for the same id the second
    one decides: answer and repository are those of the second PATCH
    alone, whether the id is known or not. *)
Theorem patch_status_last_wins (id s1 s2 : string) (documents : list Doc.t) :
  s1 = "approved" \/ s1 = "rejected" ->
  s2 = "approved" \/ s2 = "rejected" ->
  patch_status id (JString s2) (patch_status id (JString s1) documents).2
  = patch_status id (JString s2) documents.
Proof.
  intros H1 H2. unfold patch_status.
  assert (accepted_status (JString s1) = Some s1) as ->
    by (apply accepted_status_Some; auto).
  assert (accepted_status (JString s2) = Some s2) as ->
    by (apply accepted_status_Some; auto).
  destruct (Js.findIndex (has_id id) documents) as [i|] eqn:Hi; simpl; [|by rewrite Hi].
  destruct (findIndex_lookup _ _ _ Hi) as [doc Hdoc]. rewrite Hdoc. simpl.
  rewrite (findIndex_insert_same _ _ _ doc) by done. rewrite Hi.
  rewrite list_lookup_insert_eq by (by eapply lookup_lt_Some).
  by rewrite list_insert_insert_eq.
Qed.

Lemma patch_status_last_wins_witness :
  patch_status "DOC-5" (JString "rejected")
    (patch_status "DOC-5" (JString "approved") [docA; docB]).2
  = (Response 200 (JsonDocument (with_status "rejected" docA)),
     [with_status "rejected" docA; docB]).
Proof.
  rewrite (patch_status_last_wins "DOC-5" "approved" "rejected" [docA; docB]).
  - vm_compute; reflexivity.
  - left; reflexivity.
  - right; reflexivity.
Defined.

(** X8: a request that is answered with a status of 400 or more leaves
    the repository as it was. *)
Theorem error_answers_keep_repository `{host : Host} (r : request)
    (documents : list Doc.t) :
  (400 <= code (respond r documents))%Z ->
  handle r documents = documents.
Proof.
  destruct r as [now_id now_date req|now id req_body|id status|failed id]; simpl.
  - unfold post_documents. destruct (Upload.file req); simpl; [lia | done].
  - unfold put_document.
    destruct (Js.findIndex (has_id id) documents); [|done].
    destruct (documents !! n); simpl; [lia | done].
  - unfold patch_status. destruct (accepted_status status); [|done].
    destruct (Js.findIndex (has_id id) documents); [|done].
    destruct (documents !! n); simpl; [lia | done].
  - unfold delete_document.
    destruct (Js.findIndex (has_id id) documents); [|done].
    destruct (documents !! n) as [dj|]; [|done].
    destruct (has_nul (path_join uploadsDir (Doc.fileName dj))); simpl; [done | lia].
Qed.

Lemma error_answers_keep_repository_witness :
  handle (host := sampleHost) (PatchStatus "DOC-5" (JString "archived"))
    [docA; docB] = [docA; docB] /\
  handle (host := sampleHost)
    (PostDocument 9 9 (Upload.mk (Some "No file") None None None None None None))
    [docA; docB] = [docA; docB].
Proof.
  split.
  - apply (error_answers_keep_repository (host := sampleHost)
             (PatchStatus "DOC-5" (JString "archived")) [docA; docB]).
    vm_compute; discriminate.
  - apply (error_answers_keep_repository (host := sampleHost)
             (PostDocument 9 9 (Upload.mk (Some "No file") None None None None None None))
             [docA; docB]).
    vm_compute; discriminate.
Defined.

(** ** Invariants of the reachable repositories *)

Lemma update_entries_dated (v : Z) (times : list Z) :
  Forall (fun e => Entry.changes e = "Metadata updated" /\
                   is_Some (Entry.date e) /\ is_Some (Entry.version e))
         (update_entries v times).
Proof.
  revert v. induction times as [|now rest IH]; intros v; simpl; [constructor|].
  apply Forall_app. split; [apply IH|].
  repeat constructor; simpl; eauto.
Qed.

(** X9: in every repository that the requests can reach, a record's
    version is the length of its history and is at least 1; the last entry
    of the history is the undated "Initial upload" entry and every entry
    in front of it is a "Metadata updated" entry with a date and a
    version. *)
Theorem reachable_histories `{host : Host} (documents : list Doc.t) :
  reachable documents ->
  Forall (fun doc =>
            Doc.version doc = Z.of_nat (length (Doc.history doc)) /\
            (1 <= Doc.version doc)%Z /\
            exists updates,
              Doc.history doc = updates ++ [initialEntry] /\
              Forall (fun e => Entry.changes e = "Metadata updated" /\
                               is_Some (Entry.date e) /\ is_Some (Entry.version e))
                     updates)
         documents.
Proof.
  intros Hreach. apply reachable_well_versioned in Hreach.
  eapply List.Forall_impl; [|exact Hreach].
  intros doc (times & Hv & Hh). rewrite Hv, Hh.
  rewrite length_app, update_entries_length. simpl.
  split; [lia|]. split; [lia|].
  exists (update_entries 1 times). split; [done|]. apply update_entries_dated.
Qed.

Lemma reachable_histories_witness :
  Forall (fun doc =>
            Doc.version doc = Z.of_nat (length (Doc.history doc)) /\
            (1 <= Doc.version doc)%Z /\
            exists updates,
              Doc.history doc = updates ++ [initialEntry] /\
              Forall (fun e => Entry.changes e = "Metadata updated" /\
                               is_Some (Entry.date e) /\ is_Some (Entry.version e))
                     updates)
         (twoUpdated (host := sampleHost)).
Proof.
  apply (reachable_histories (host := sampleHost) twoUpdated).
  exists [PostDocument 5 5 uploadA;
          PutDocument 10 "DOC-5" (bodyTitle "Budget 2");
          PostDocument 7 7 uploadB;
          PutDocument 20 "DOC-7" (bodyTitle "Contract 2")].
  reflexivity.
Defined.

Lemma ids_below_mono (b b' : Z) (documents : list Doc.t) :
  (b <= b')%Z -> ids_below b documents -> ids_below b' documents.
Proof.
  intros Hb [Hnd Hall]. split; [done|].
  eapply List.Forall_impl; [|exact Hall].
  intros id (t & Ht & ->). exists t. split; [lia | done].
Qed.

Lemma handle_ids_below `{host : Host} (b : Z) (r : request) (rest : list request)
    (documents : list Doc.t) :
  ids_below b documents ->
  clock_advances b (r :: rest) ->
  exists b', ids_below b' (handle r documents) /\ clock_advances b' rest.
Proof.
  intros [Hnd Hall] Hclock.
  destruct r as [now_id now_date req|now id req_body|id status|failed id];
    simpl in Hclock |- *.
  - destruct Hclock as [Hb Hrest]. exists (now_id + 1)%Z. split; [|done].
    unfold post_documents. destruct (Upload.file req) as [file|]; simpl.
    + split.
      * rewrite fmap_app. apply list.NoDup_app. split; [done|].
        split; [|apply NoDup_singleton].
        intros s Hs Hin. apply list_elem_of_singleton in Hin. simpl in Hin.
        destruct (proj1 (list.Forall_forall _ _) Hall s Hs) as (t & Ht & ->).
        apply (inj (String.app "DOC-")) in Hin. apply (inj pretty) in Hin. lia.
      * rewrite fmap_app. apply Forall_app. split.
        -- eapply List.Forall_impl; [|exact Hall].
           intros s (t & Ht & ->). exists t. split; [lia | done].
        -- repeat constructor. exists now_id. split; [lia | done].
    + apply (ids_below_mono b); [lia | done].
  - destruct Hclock as [Hid Hrest]. exists b. split; [|done].
    unfold put_document.
    destruct (Js.findIndex (has_id id) documents) as [i|]; [|done].
    destruct (documents !! i) as [orig|] eqn:Ho; [|done]. simpl.
    unfold ids_below. rewrite list_fmap_insert. simpl. rewrite Hid. simpl.
    rewrite list_insert_id; [done|]. by rewrite list_lookup_fmap, Ho.
  - exists b. split; [|done]. unfold patch_status.
    destruct (accepted_status status) as [s|]; [|done].
    destruct (Js.findIndex (has_id id) documents) as [i|]; [|done].
    destruct (documents !! i) as [doc|] eqn:Hdoc; [|done]. simpl.
    unfold ids_below. rewrite list_fmap_insert. simpl.
    rewrite list_insert_id; [done|]. by rewrite list_lookup_fmap, Hdoc.
  - exists b. split; [|done]. unfold delete_document.
    destruct (Js.findIndex (has_id id) documents) as [i|]; [|done].
    destruct (documents !! i) as [dj|]; [|done].
    destruct (has_nul (path_join uploadsDir (Doc.fileName dj))); [done|]. simpl.
    unfold ids_below. rewrite list_fmap_delete. split.
    + eapply sublist_NoDup; [exact Hnd | apply sublist_delete].
    + by apply Forall_delete.
Qed.

Lemma serve_from_ids_below `{host : Host} (b : Z) (requests : list request)
    (documents : list Doc.t) :
  ids_below b documents ->
  clock_advances b requests ->
  exists b', ids_below b' (serve_from documents requests).
Proof.
  revert b documents.
  induction requests as [|r rest IH]; intros b documents Hids Hclock; simpl.
  - by exists b.
  - destruct (handle_ids_below b r rest documents Hids Hclock) as (b' & Hids' & Hrest).
    by apply (IH b').
Qed.

(** X10: when every upload reads a clock value larger than the uploads
    before it did and no PUT body has the key [id], the ids of the
    repository are pairwise different after any number of requests, so an
    id names one record at most. *)
Theorem advancing_clock_unique_ids `{host : Host} (bound : Z) (requests : list request) :
  clock_advances bound requests ->
  NoDup (Doc.id <$> serve requests) /\
  forall i j di dj,
    serve requests !! i = Some di -> serve requests !! j = Some dj ->
    Doc.id di = Doc.id dj -> i = j.
Proof.
  intros Hclock.
  destruct (serve_from_ids_below bound requests []) as (b' & Hnd & _); [|done|].
  { split; constructor. }
  change (serve_from [] requests) with (serve requests) in Hnd.
  split; [exact Hnd|].
  intros i j di dj Hi Hj Hid.
  eapply NoDup_lookup; [exact Hnd| |].
  - by rewrite list_lookup_fmap, Hi.
  - rewrite list_lookup_fmap, Hj. simpl. by rewrite Hid.
Qed.

Lemma advancing_clock_unique_ids_witness :
  NoDup (Doc.id <$> twoUpdated (host := sampleHost)).
Proof.
  apply (advancing_clock_unique_ids (host := sampleHost) 0
    [PostDocument 5 5 uploadA;
     PutDocument 10 "DOC-5" (bodyTitle "Budget 2");
     PostDocument 7 7 uploadB;
     PutDocument 20 "DOC-7" (bodyTitle "Contract 2")]).
  vm_compute. repeat split; discriminate.
Defined.

(** X11: a request changes the number of records by one at most, and a
    repository never holds more records than uploads with a file were
    served. *)
Theorem records_bounded_by_uploads `{host : Host} (requests : list request)
    (documents : list Doc.t) :
  (length (serve_from documents requests) <= length documents + uploads requests)%nat /\
  (length (serve requests) <= uploads requests)%nat /\
  (forall r, length (handle r documents) <= S (length documents) /\
             length documents <= S (length (handle r documents)))%nat.
Proof.
  assert (Hstep : forall r docs,
    (length (handle r docs) <= length docs + uploads [r])%nat /\
    (length (handle r docs) <= S (length docs))%nat /\
    (length docs <= S (length (handle r docs)))%nat).
  { intros r docs.
    destruct r as [now_id now_date req|now id req_body|id status|failed id];
      unfold uploads; simpl.
    - unfold post_documents. destruct (Upload.file req); simpl;
        rewrite ?length_app; simpl; lia.
    - unfold put_document. destruct (Js.findIndex (has_id id) docs); [|simpl; lia].
      destruct (docs !! n); simpl; rewrite ?length_insert; lia.
    - unfold patch_status. destruct (accepted_status status); [|simpl; lia].
      destruct (Js.findIndex (has_id id) docs); [|simpl; lia].
      destruct (docs !! n); simpl; rewrite ?length_insert; lia.
    - unfold delete_document.
      destruct (Js.findIndex (has_id id) docs) as [i|] eqn:Hi; simpl; [|lia].
      destruct (findIndex_lookup _ _ _ Hi) as [d Hd]. rewrite Hd.
      destruct (has_nul (path_join uploadsDir (Doc.fileName d))); simpl; [lia|].
      rewrite length_delete by eauto. lia. }
  assert (Hrun : forall reqs docs,
    (length (serve_from docs reqs) <= length docs + uploads reqs)%nat).
  { induction reqs as [|r rest IH]; intros docs; simpl; [lia|].
    specialize (IH (handle r docs)). destruct (Hstep r docs) as [H1 _].
    change (uploads (r :: rest)) with (uploads ([r] ++ rest)).
    unfold uploads in *. rewrite List.filter_app, length_app. lia. }
  split; [apply Hrun|]. split; [apply (Hrun requests [])|].
  intros r. destruct (Hstep r documents) as (_ & H2 & H3). done.
Qed.



(** ** The statistics along the requests *)



Lemma pending_app (l1 l2 : list Doc.t) :
  pending (l1 ++ l2) = (pending l1 + pending l2)%nat.
Proof. unfold pending. simpl. by rewrite List.filter_app, length_app. Qed.

Lemma pending_cons (doc : Doc.t) (l : list Doc.t) :
  pending (doc :: l)
  = ((if String.eqb (Doc.status doc) "pending" then 1 else 0) + pending l)%nat.
Proof. unfold pending. simpl. by destruct (String.eqb (Doc.status doc) "pending"). Qed.

(** X13: an upload with a file adds one to [totalDocuments] and to
    [pendingApprovals], and the double of the file's size to the sum of
    doubles that [storageUsed] is made from.  While the stored sizes and
    the size of the file are non-negative and their sum is below 2^53, the
    additions are exact: the sum grows by the size of the file. *)
Theorem stats_after_upload (now_id now_date : Z) (req : Upload.t) (file : File.t)
    (documents : list Doc.t) :
  Upload.file req = Some file ->
  Stats.totalDocuments (get_stats (post_documents now_id now_date req documents).2)
  = S (Stats.totalDocuments (get_stats documents)) /\
  Stats.pendingApprovals (get_stats (post_documents now_id now_date req documents).2)
  = S (Stats.pendingApprovals (get_stats documents)) /\
  storageUsedInBytes (post_documents now_id now_date req documents).2
  = Js.add (storageUsedInBytes documents) (Js.of_Z (File.size file)) /\
  (Forall (fun doc => (0 <= Doc.fileSize doc)%Z) documents ->
   (0 <= File.size file)%Z ->
   (bytes_of documents + File.size file < 9007199254740992)%Z ->
   storageUsedInBytes documents = Js.Finite (bytes_of documents) /\
   storageUsedInBytes (post_documents now_id now_date req documents).2
   = Js.Finite (bytes_of documents + File.size file)).
Proof.
  intros Hfile. unfold post_documents. rewrite Hfile. cbn [fst snd].
  rewrite storageUsedInBytes_snoc.
  change (Doc.fileSize (newDocument now_id now_date req file)) with (File.size file).
  split; [|split; [|split; [done|]]].
  - simpl. rewrite length_app. simpl. lia.
  - simpl. rewrite List.filter_app, length_app. simpl. lia.
  - intros Hsizes Hfile0 Hsum.
    rewrite (storageUsedInBytes_exact documents Hsizes) by lia.
    split; [done|].
    pose proof (bytes_of_nonneg documents Hsizes) as Hnn.
    rewrite (of_Z_small (File.size file)) by lia. cbn [Js.add].
    apply of_Z_small. lia.
Qed.

Lemma stats_after_upload_witness :
  Stats.totalDocuments (get_stats (post_documents 7 7 uploadB [docA]).2) = 2%nat /\
  Stats.pendingApprovals (get_stats (post_documents 7 7 uploadB [docA]).2) = 2%nat /\
  storageUsedInBytes (post_documents 7 7 uploadB [docA]).2 = Js.Finite 3000.
Proof.
  destruct (stats_after_upload 7 7 uploadB fileB [docA] eq_refl)
    as (Htotal & Hpending & _ & Hbytes).
  split; [exact Htotal|]. split; [exact Hpending|].
  apply Hbytes.
  - repeat constructor; discriminate.
  - discriminate.
  - reflexivity.
Defined.



(** X15: a PATCH with a valid status that finds a record leaves
    [totalDocuments] and the bytes of [storageUsed] as they were and takes
    one off [pendingApprovals] exactly when the record was pending: a
    record that was approved or rejected is never counted again. *)
Theorem stats_after_status (id s : string) (documents : list Doc.t) (i : nat)
    (doc : Doc.t) :
  s = "approved" \/ s = "rejected" ->
  Js.findIndex (has_id id) documents = Some i ->
  documents !! i = Some doc ->
  Stats.totalDocuments (get_stats (patch_status id (JString s) documents).2)
  = Stats.totalDocuments (get_stats documents) /\
  storageUsedInBytes (patch_status id (JString s) documents).2
  = storageUsedInBytes documents /\
  (Stats.pendingApprovals (get_stats (patch_status id (JString s) documents).2)
   + (if String.eqb (Doc.status doc) "pending" then 1 else 0))%nat
  = Stats.pendingApprovals (get_stats documents).
Proof.
  intros Hs Hi Hdoc. unfold patch_status.
  assert (accepted_status (JString s) = Some s) as ->
    by (apply accepted_status_Some; auto).
  rewrite Hi, Hdoc. cbn [fst snd].
  fold (pending (<[i := with_status s doc]> documents)) (pending documents).
  pose proof (take_drop_middle documents i doc Hdoc) as Hsplit.
  rewrite insert_take_drop by (by eapply lookup_lt_Some).
  remember (take i documents) as l1 eqn:E1.
  remember (drop (S i) documents) as l2 eqn:E2.
  clear E1 E2. rewrite <- Hsplit.
  rewrite !pending_app, !pending_cons. simpl.
  rewrite !length_app. simpl.
  assert (String.eqb s "pending" = false) as ->.
  { apply String.eqb_neq. by destruct Hs as [-> | ->]. }
  split; [done|]. split; [|lia].
  apply storageUsedInBytes_sizes. by rewrite !fmap_app.
Qed.

Lemma stats_after_status_witness :
  Stats.totalDocuments
    (get_stats (patch_status "DOC-7" (JString "approved") [docA; docB]).2)
  = Stats.totalDocuments (get_stats [docA; docB]) /\
  storageUsedInBytes (patch_status "DOC-7" (JString "approved") [docA; docB]).2
  = storageUsedInBytes [docA; docB] /\
  (Stats.pendingApprovals
     (get_stats (patch_status "DOC-7" (JString "approved") [docA; docB]).2)
   + (if String.eqb (Doc.status docB) "pending" then 1 else 0))%nat
  = Stats.pendingApprovals (get_stats [docA; docB]).
Proof.
  apply (stats_after_status "DOC-7" "approved" [docA; docB] 1 docB).
  - left; reflexivity.
  - vm_compute; reflexivity.
  - reflexivity.
Defined.

(** ** The activity feed *)

Lemma allActivities_length (documents : list Doc.t) :
  length (allActivities documents) = history_entries documents.
Proof.
  unfold allActivities, history_entries.
  induction documents as [|doc l IH]; simpl; [done|].
  by rewrite length_app, length_fmap, IH.
Qed.

Lemma allActivities_elem (documents : list Doc.t) (a : Activity.t) :
  a ∈ allActivities documents <->
  exists doc entry,
    doc ∈ documents /\ entry ∈ Doc.history doc /\
    a = Activity.mk entry (Doc.id doc) (Doc.title doc).
Proof.
  unfold allActivities. rewrite list_elem_of_In, in_flat_map. split.
  - intros (doc & Hdoc & Ha). apply list_elem_of_In, list_elem_of_fmap in Ha.
    destruct Ha as (entry & -> & Hentry).
    exists doc, entry. by rewrite list_elem_of_In.
  - intros (doc & entry & Hdoc & Hentry & ->). exists doc.
    split; [by apply list_elem_of_In|].
    apply list_elem_of_In, list_elem_of_fmap. eauto.
Qed.

(** X16: the feed has five activities, or as many as the histories of the
    repository hold entries if these are fewer; each activity is an entry
    of the history of a stored record together with that record's id and
    title; and with five entries or fewer none is left out. *)
Theorem get_activities_bounded (documents : list Doc.t) :
  length (get_activities documents) = min 5 (history_entries documents) /\
  (forall a, a ∈ get_activities documents ->
     exists doc entry,
       doc ∈ documents /\ entry ∈ Doc.history doc /\
       a = Activity.mk entry (Doc.id doc) (Doc.title doc)) /\
  ((history_entries documents <= 5)%nat ->
   get_activities documents ≡ₚ allActivities documents).
Proof.
  unfold get_activities. split; [|split].
  - rewrite length_take, (Permutation_length (sort_Permutation _ _)).
    by rewrite allActivities_length.
  - intros a Ha. apply allActivities_elem.
    rewrite <- (sort_Permutation by_date). eapply elem_of_sublist; [exact Ha|].
    apply sublist_take.
  - intros Hle. rewrite take_ge; [apply sort_Permutation|].
    rewrite (Permutation_length (sort_Permutation _ _)), allActivities_length. lia.
Qed.

(** ** GET /api/documents/:id/download *)

(** X17: after an upload with a file whose new id no stored record
    carried, the download by that id sends the file that multer stored,
    under the name the client gave it; if the transfer fails the answer is
    500 "Could not download the file.". *)
Theorem download_after_upload (uploadsDir : string)
    (path_join : string -> string -> string) (download_failed : bool)
    (now_id now_date : Z) (req : Upload.t) (file : File.t) (documents : list Doc.t) :
  Upload.file req = Some file ->
  Forall (fun doc => Doc.id doc <> "DOC-" +:+ pretty now_id) documents ->
  download_document uploadsDir path_join download_failed ("DOC-" +:+ pretty now_id)
    (post_documents now_id now_date req documents).2
  = if download_failed
    then Refused (Response 500 (Text "Could not download the file."))
    else SentFile (path_join uploadsDir (File.filename file)) (File.originalname file).
Proof.
  intros Hfile Hall. unfold post_documents. rewrite Hfile. simpl.
  unfold download_document. rewrite find_findIndex, findIndex_app.
  assert (Js.findIndex (has_id ("DOC-" +:+ pretty now_id)) documents = None) as ->.
  { apply findIndex_None. eapply List.Forall_impl; [|exact Hall].
    intros d Hd. by apply String.eqb_neq. }
  simpl. unfold has_id at 1. simpl. rewrite String.eqb_refl. simpl.
  rewrite Nat.add_0_r, list_lookup_middle by done. done.
Qed.

Lemma download_after_upload_witness :
  download_document "/srv/uploads" (fun dir name => dir +:+ "/" +:+ name) false
    "DOC-7" (post_documents 7 7 uploadB [docA]).2
  = SentFile "/srv/uploads/2-b.pdf" "b.pdf".
Proof.
  apply (download_after_upload "/srv/uploads" (fun dir name => dir +:+ "/" +:+ name)
           false 7 7 uploadB fileB [docA] eq_refl).
  repeat constructor. discriminate.
Defined.

(** X18: the download follows the record, not the upload: after a PUT
    whose body has [fileName] and [originalName] (and no [id]), the
    download by the same id sends the file the body names, under the name
    the body gives. *)
Theorem download_after_put (uploadsDir : string)
    (path_join : string -> string -> string)
    (now : Z) (id : string) (req_body : Body.t) (documents : list Doc.t)
    (i : nat) (fileName originalName : string) :
  Js.findIndex (has_id id) documents = Some i ->
  Body.id req_body = None ->
  Body.fileName req_body = Some fileName ->
  Body.originalName req_body = Some originalName ->
  download_document uploadsDir path_join false id
    (put_document now id req_body documents).2
  = SentFile (path_join uploadsDir fileName) originalName.
Proof.
  intros Hi Hid Hname Horig.
  destruct (put_document_found now id req_body documents i Hi) as (orig & Ho & Hhas & ->).
  simpl. unfold download_document. rewrite find_findIndex.
  rewrite (findIndex_insert_same _ _ _ orig); [|done|].
  - rewrite Hi. simpl.
    rewrite list_lookup_insert_eq by (by eapply lookup_lt_Some).
    simpl. by rewrite Hname, Horig.
  - unfold has_id. simpl. by rewrite Hid.
Qed.

Lemma download_after_put_witness :
  download_document "/srv/uploads" (fun dir name => dir +:+ "/" +:+ name) false
    "DOC-5"
    (put_document 10 "DOC-5"
       (Body.mk None None None None None None None (Some "2-b.pdf") (Some "b.pdf")
          None None None None None None None None) [docA; docB]).2
  = SentFile "/srv/uploads/2-b.pdf" "b.pdf".
Proof.
  apply (download_after_put "/srv/uploads" (fun dir name => dir +:+ "/" +:+ name) 10
           "DOC-5" _ [docA; docB] 0 "2-b.pdf" "b.pdf"); reflexivity.
Defined.

(** ** Edges of the listing *)

Lemma filter_documents_spec (Date_parse : string -> option Z) (query : Query.t)
    (documents r : list Doc.t) :
  filter_documents Date_parse query documents = Ok r ->
  r = List.filter (satisfies Date_parse query) documents.
Proof.
  intros Hr. pose proof (filter_documents_Ok _ _ _ _ Hr) as Hq.
  rewrite (filter_documents_returns Date_parse _ _ Hq) in Hr. congruence.
Qed.

Lemma satisfies_dates (Date_parse : string -> option Z) (query : Query.t) (doc : Doc.t) :
  satisfies Date_parse query doc = true ->
  holds (Query.dateFrom query) (not_before Date_parse) doc = true /\
  holds (Query.dateTo query) (not_after Date_parse) doc = true.
Proof.
  unfold satisfies. rewrite !andb_true_iff. tauto.
Qed.

Lemma listed_nothing {A} (l : list A) : (forall x, x ∈ l -> False) -> l = [].
Proof. destruct l as [|x l]; [done|]. intros H. destruct (H x). by left. Qed.

(** X19: the bounds of the date range are inclusive and not validated:
    every listed record was uploaded at or after [dateFrom] and at or
    before [dateTo]; a bound that the date parser does not understand, or
    a [dateFrom] later than the [dateTo], gives the empty listing with
    status 200 and not an error. *)
Theorem date_range_edges (Date_parse : string -> option Z) (query : Query.t)
    (documents r : list Doc.t) :
  filter_documents Date_parse query documents = Ok r ->
  (forall from t, Query.dateFrom query = Some from -> from <> "" ->
     Date_parse from = Some t ->
     Forall (fun doc => (t <= Doc.uploadDate doc)%Z) r) /\
  (forall to t, Query.dateTo query = Some to -> to <> "" ->
     Date_parse to = Some t ->
     Forall (fun doc => (Doc.uploadDate doc <= t)%Z) r) /\
  (forall from, Query.dateFrom query = Some from -> from <> "" ->
     Date_parse from = None -> r = []) /\
  (forall to, Query.dateTo query = Some to -> to <> "" ->
     Date_parse to = None -> r = []) /\
  (forall from to t1 t2,
     Query.dateFrom query = Some from -> from <> "" -> Date_parse from = Some t1 ->
     Query.dateTo query = Some to -> to <> "" -> Date_parse to = Some t2 ->
     (t2 < t1)%Z -> r = []).
Proof.
  intros Hr. apply filter_documents_spec in Hr. subst r.
  assert (Hin : forall d, d ∈ List.filter (satisfies Date_parse query) documents ->
    holds (Query.dateFrom query) (not_before Date_parse) d = true /\
    holds (Query.dateTo query) (not_after Date_parse) d = true).
  { intros d Hd. apply list_elem_of_In, filter_In in Hd as [_ Hd].
    by apply satisfies_dates. }
  assert (Htruthy : forall s, s <> "" -> negb (String.eqb s "") = true).
  { intros s Hs. by apply negb_true_iff, String.eqb_neq. }
  split; [|split; [|split; [|split]]].
  - intros from t Hq Hne Hp. apply list.Forall_forall. intros d Hd.
    destruct (Hin d Hd) as [Hfrom _]. rewrite Hq in Hfrom. simpl in Hfrom.
    rewrite (Htruthy _ Hne) in Hfrom. unfold not_before in Hfrom.
    rewrite Hp in Hfrom. by apply Z.leb_le.
  - intros to t Hq Hne Hp. apply list.Forall_forall. intros d Hd.
    destruct (Hin d Hd) as [_ Hto]. rewrite Hq in Hto. simpl in Hto.
    rewrite (Htruthy _ Hne) in Hto. unfold not_after in Hto.
    rewrite Hp in Hto. by apply Z.leb_le.
  - intros from Hq Hne Hp. apply listed_nothing. intros d Hd.
    destruct (Hin d Hd) as [Hfrom _]. rewrite Hq in Hfrom. simpl in Hfrom.
    rewrite (Htruthy _ Hne) in Hfrom. unfold not_before in Hfrom.
    rewrite Hp in Hfrom. discriminate.
  - intros to Hq Hne Hp. apply listed_nothing. intros d Hd.
    destruct (Hin d Hd) as [_ Hto]. rewrite Hq in Hto. simpl in Hto.
    rewrite (Htruthy _ Hne) in Hto. unfold not_after in Hto.
    rewrite Hp in Hto. discriminate.
  - intros from to t1 t2 Hq1 Hne1 Hp1 Hq2 Hne2 Hp2 Hlt.
    apply listed_nothing. intros d Hd.
    destruct (Hin d Hd) as [Hfrom Hto].
    rewrite Hq1 in Hfrom. rewrite Hq2 in Hto. simpl in Hfrom, Hto.
    rewrite (Htruthy _ Hne1) in Hfrom. rewrite (Htruthy _ Hne2) in Hto.
    unfold not_before in Hfrom. unfold not_after in Hto.
    rewrite Hp1 in Hfrom. rewrite Hp2 in Hto.
    apply Z.leb_le in Hfrom, Hto. lia.
Qed.

Lemma date_range_edges_witness :
  filter_documents parse_sample
    (Query.mk None None None None None
       (Some "1970-01-01T00:00:00.006Z") (Some "1970-01-01T00:00:00.009Z"))
    [docA; docB] = Ok [docB] /\
  Forall (fun doc => (6 <= Doc.uploadDate doc)%Z) [docB] /\
  filter_documents parse_sample
    (Query.mk None None None None None (Some "yesterday") None) [docA; docB]
  = Ok [].
Proof.
  assert (H1 : filter_documents parse_sample
    (Query.mk None None None None None
       (Some "1970-01-01T00:00:00.006Z") (Some "1970-01-01T00:00:00.009Z"))
    [docA; docB] = Ok [docB]) by reflexivity.
  assert (H2 : filter_documents parse_sample
    (Query.mk None None None None None (Some "yesterday") None) [docA; docB]
    = Ok []) by reflexivity.
  split; [exact H1|]. split; [|exact H2].
  destruct (date_range_edges parse_sample _ _ _ H1) as (Hfrom & _).
  apply (Hfrom "1970-01-01T00:00:00.006Z" 6%Z); [reflexivity | discriminate | reflexivity].
Defined.

Lemma toLowerCase_empty (s : string) : Js.toLowerCase s = "" <-> s = "".
Proof. destruct s; simpl; split; congruence. Qed.

(** X20: on ASCII text, the case of the letters of [q] does not matter:
    for records whose title, description and tags are ASCII text, two ASCII
    search terms that are equal after lowering give the same listing, or the
    same exception, under the same other criteria. *)
Theorem q_ignores_case (Date_parse : string -> option Z) (q1 q2 : string)
    (category department status confidentiality dateFrom dateTo : option string)
    (documents : list Doc.t) :
  ascii_text q1 = true ->
  ascii_text q2 = true ->
  Forall (fun doc => ascii_record doc = true) documents ->
  Js.toLowerCase q1 = Js.toLowerCase q2 ->
  filter_documents Date_parse
    (Query.mk (Some q1) category department status confidentiality dateFrom dateTo)
    documents
  = filter_documents Date_parse
      (Query.mk (Some q2) category department status confidentiality dateFrom dateTo)
      documents.
Proof.
  intros _ _ _ Hlow. unfold filter_documents. simpl.
  assert (String.eqb q1 "" = String.eqb q2 "") as ->.
  { destruct (String.eqb_spec q1 "") as [->|H1], (String.eqb_spec q2 "") as [->|H2];
      try done.
    - simpl in Hlow. symmetry in Hlow.
      apply (proj1 (toLowerCase_empty _)) in Hlow. congruence.
    - simpl in Hlow. apply (proj1 (toLowerCase_empty _)) in Hlow. congruence. }
  by rewrite Hlow.
Qed.

Lemma q_ignores_case_witness :
  filter_documents (fun _ => None) (query_q "BUDGET") [docA; docB]
  = filter_documents (fun _ => None) (query_q "budget") [docA; docB] /\
  filter_documents (fun _ => None) (query_q "budget") [docA; docB] = Ok [docA].
Proof.
  split; [|reflexivity].
  apply (q_ignores_case (fun _ => None) "BUDGET" "budget" None None None None None None
           [docA; docB]).
  - reflexivity.
  - reflexivity.
  - repeat constructor.
  - reflexivity.
Defined.

(** X21: for an ASCII search term [q] and records whose title, description
    and tags are ASCII text, a listing by [q] alone that returns holds
    exactly the records in which the lowered [q] occurs in the lowered
    title, the lowered description or a lowered tag. *)
Theorem q_finds_text (Date_parse : string -> option Z) (q : string)
    (documents r : list Doc.t) :
  q <> "" ->
  ascii_text q = true ->
  Forall (fun doc => ascii_record doc = true) documents ->
  filter_documents Date_parse (query_q q) documents = Ok r ->
  forall doc,
    doc ∈ r <->
    doc ∈ documents /\
    exists text,
      (Doc.title doc = Some text \/ Doc.description doc = Some text \/
       text ∈ Doc.tags doc) /\
      Js.includes (Js.toLowerCase text) (Js.toLowerCase q) = true.
Proof.
  intros Hne _ _ Hr doc.
  pose proof (filter_documents_Ok _ _ _ _ Hr) as Hq.
  apply filter_documents_spec in Hr. subst r.
  assert (Htruthy : negb (String.eqb q "") = true)
    by (by apply negb_true_iff, String.eqb_neq).
  specialize (Hq Htruthy). simpl in Hq.
  rewrite list_elem_of_In, filter_In, <- list_elem_of_In.
  unfold satisfies. simpl. rewrite Htruthy, !andb_true_r.
  split.
  - intros [Hdoc Hm]. split; [done|].
    unfold returns_true, matches_q in Hm.
    destruct (Doc.title doc) as [t|]; simpl in Hm; [|done].
    destruct (Js.includes (Js.toLowerCase t) (Js.toLowerCase q)) eqn:Ht.
    { exists t. auto. }
    destruct (Doc.description doc) as [d|]; simpl in Hm; [|done].
    destruct (Js.includes (Js.toLowerCase d) (Js.toLowerCase q)) eqn:Hd.
    { exists d. auto. }
    apply existsb_exists in Hm as (tag & Htag & Hinc).
    exists tag. split; [|done]. right; right. by apply list_elem_of_In.
  - intros [Hdoc (text & Hwhere & Hinc)]. split; [done|].
    destruct (proj1 (list.Forall_forall _ _) Hq doc Hdoc) as [Ht Hd].
    unfold returns_true, matches_q.
    destruct (Doc.title doc) as [t|]; [|done]. simpl.
    destruct (Js.includes (Js.toLowerCase t) (Js.toLowerCase q)) eqn:Hti; [done|].
    destruct Hd as [Hd|(t' & [= <-] & Hc)]; [|congruence].
    destruct (Doc.description doc) as [d|]; [|done]. simpl.
    destruct (Js.includes (Js.toLowerCase d) (Js.toLowerCase q)) eqn:Hdi; [done|].
    destruct Hwhere as [[= ->]|[[= ->]|Htag]]; [congruence..|].
    apply existsb_exists. exists text. split; [by apply list_elem_of_In | done].
Qed.

Lemma q_finds_text_witness :
  docA ∈ [docA] <->
  docA ∈ [docA; docB] /\
  exists text,
    (Doc.title docA = Some text \/ Doc.description docA = Some text \/
     text ∈ Doc.tags docA) /\
    Js.includes (Js.toLowerCase text) (Js.toLowerCase "MONEY") = true.
Proof.
  apply (q_finds_text (fun _ => None) "MONEY" [docA; docB] [docA]).
  - discriminate.
  - reflexivity.
  - repeat constructor.
  - reflexivity.
Defined.

(** ** The tags of an upload *)

Lemma split_length (sep : ascii) (s : string) :
  length (Js.split sep s) = S (occurrences sep s).
Proof.
  induction s as [|c r IH]; simpl; [done|].
  destruct (Ascii.eqb c sep); simpl; [by rewrite IH|].
  destruct (Js.split sep r); simpl in *; [discriminate | done].
Qed.

Lemma chars_rev_app (s acc : string) :
  list_ascii_of_string (String.rev_app s acc)
  = rev (list_ascii_of_string s) ++ list_ascii_of_string acc.
Proof.
  revert acc. induction s as [|c r IH]; intros acc; simpl; [done|].
  rewrite IH. simpl. by rewrite <- app_assoc.
Qed.

Lemma chars_rev (s : string) :
  list_ascii_of_string (String.rev s) = rev (list_ascii_of_string s).
Proof. unfold String.rev. rewrite chars_rev_app. simpl. by rewrite app_nil_r. Qed.

Lemma string_rev_involutive (s : string) : String.rev (String.rev s) = s.
Proof.
  rewrite <- (string_of_list_ascii_of_string (String.rev (String.rev s))).
  rewrite !chars_rev, rev_involutive. apply string_of_list_ascii_of_string.
Qed.

Lemma trimStart_black (s : string) : starts_black (Js.trimStart s).
Proof.
  induction s as [|c r IH]; simpl; [done|].
  destruct (Ascii.is_space c) eqn:Hc; [done | by simpl].
Qed.

Lemma trimStart_suffix (s : string) :
  exists pre, list_ascii_of_string s = pre ++ list_ascii_of_string (Js.trimStart s).
Proof.
  induction s as [|c r [pre IH]]; simpl; [by exists []|].
  destruct (Ascii.is_space c).
  - exists (c :: pre). simpl. by rewrite IH.
  - by exists [].
Qed.

Lemma trim_black (s : string) :
  starts_black (Js.trim s) /\ starts_black (String.rev (Js.trim s)).
Proof.
  unfold Js.trim. rewrite string_rev_involutive.
  split; [|apply trimStart_black].
  set (z := Js.trimStart s).
  destruct (trimStart_suffix (String.rev z)) as [pre Hpre].
  set (x := Js.trimStart (String.rev z)) in *.
  destruct (String.rev x) as [|c r] eqn:Hx; [done|]. simpl.
  assert (Hz : list_ascii_of_string z = (c :: list_ascii_of_string r) ++ rev pre).
  { rewrite <- (rev_involutive (list_ascii_of_string z)), <- chars_rev, Hpre.
    rewrite rev_app_distr, <- chars_rev, Hx. done. }
  pose proof (trimStart_black s) as Hblack. fold z in Hblack.
  destruct z as [|c' z']; simpl in Hz; [discriminate|].
  injection Hz as -> _. exact Hblack.
Qed.

(** X22: the tags of a new record: none when the body has no [tags] field
    or an empty one; otherwise one tag more than the field has commas,
    none of which starts or ends with a white space character. *)
Theorem stored_tags (now_id now_date : Z) (req : Upload.t) (file : File.t) :
  (Upload.tags req = None -> Doc.tags (newDocument now_id now_date req file) = []) /\
  (Upload.tags req = Some "" -> Doc.tags (newDocument now_id now_date req file) = []) /\
  (forall tags, Upload.tags req = Some tags -> tags <> "" ->
     length (Doc.tags (newDocument now_id now_date req file))
     = S (occurrences "," tags) /\
     Forall (fun tag => starts_black tag /\ starts_black (String.rev tag))
            (Doc.tags (newDocument now_id now_date req file))).
Proof.
  simpl. split; [by intros ->|]. split; [by intros ->|].
  intros tags -> Hne.
  assert (negb (String.eqb tags "") = true) as ->
    by (by apply negb_true_iff, String.eqb_neq).
  split; [by rewrite length_fmap, split_length|].
  apply Forall_fmap, Forall_true. intros tag. apply trim_black.
Qed.

(** ** Records that share or change their id *)


(** X23: a PUT whose body has the key [id] renames the record: when the
    new id was free and no other record carried the old one, the record
    answers to the new id from then on and the old id is unknown. *)
Theorem put_renames (now : Z) (id id' : string) (req_body : Body.t)
    (documents : list Doc.t) (i : nat) :
  Js.findIndex (has_id id) documents = Some i ->
  Body.id req_body = Some id' ->
  Forall (fun doc => Doc.id doc <> id') documents ->
  (forall j d, j <> i -> documents !! j = Some d -> Doc.id d <> id) ->
  exists doc,
    (put_document now id req_body documents).1 = Response 200 (JsonDocument doc) /\
    Doc.id doc = id' /\
    get_document id' (put_document now id req_body documents).2
    = Response 200 (JsonDocument doc) /\
    get_document id (put_document now id req_body documents).2
    = Response 404 (Text "Document not found.").
Proof.
  intros Hi Hid Hfree Hother.
  destruct (put_document_found now id req_body documents i Hi) as (orig & Ho & Hhas & ->).
  set (doc := updatedDocument now orig req_body).
  assert (Hdoc_id : Doc.id doc = id') by (unfold doc; simpl; by rewrite Hid).
  assert (Hlt : (i < length documents)%nat) by (by eapply lookup_lt_Some).
  assert (Hne : id' <> id).
  { intros ->. apply String.eqb_eq in Hhas.
    by apply (proj1 (Forall_lookup _ _) Hfree i orig Ho). }
  exists doc. simpl. split; [done|]. split; [done|]. split.
  - eapply (get_document_found _ _ i).
    + eapply findIndex_first.
      * by apply list_lookup_insert_eq.
      * unfold has_id. rewrite Hdoc_id. apply String.eqb_refl.
      * intros j d Hj Hd. rewrite list_lookup_insert_ne in Hd by lia.
        apply String.eqb_neq.
        by apply (proj1 (Forall_lookup _ _) Hfree j d Hd).
    + by apply list_lookup_insert_eq.
  - apply get_document_absent, Forall_lookup. intros j d Hd.
    apply String.eqb_neq. destruct (decide (j = i)) as [->|Hj].
    + rewrite list_lookup_insert_eq in Hd by done. injection Hd as <-. congruence.
    + rewrite list_lookup_insert_ne in Hd by done. by eapply Hother.
Qed.

Lemma put_renames_witness :
  exists doc,
    (put_document 10 "DOC-5" bodyWithFileKeys [docA; docB]).1
    = Response 200 (JsonDocument doc) /\
    Doc.id doc = "DOC-0" /\
    get_document "DOC-0" (put_document 10 "DOC-5" bodyWithFileKeys [docA; docB]).2
    = Response 200 (JsonDocument doc) /\
    get_document "DOC-5" (put_document 10 "DOC-5" bodyWithFileKeys [docA; docB]).2
    = Response 404 (Text "Document not found.").
Proof.
  apply (put_renames 10 "DOC-5" "DOC-0" bodyWithFileKeys [docA; docB] 0).
  - vm_compute; reflexivity.
  - reflexivity.
  - repeat constructor; discriminate.
  - intros [|[|j]] d Hj Hd; [done| |done].
    injection Hd as <-. discriminate.
Defined.


